(** * Chat classification and screening scoring engine

    A shallow embedding of the two leaf services of the mental-health support
    application:

    - the screening scorer ([scorePHQ9], [scoreGAD7]), and
    - the deterministic chat classifier ([classify], [buildResponse]).

    JavaScript values are modelled as follows.  A string is a [string] (the
    sequence of its code units; every keyword of the trigger tables is plain
    ASCII).  A number that only ever holds an integer is a [Z]; a match ratio
    [matches / keywords.length] is a rational [Q] in lowest terms.  A call
    that may throw returns a [result]. *)

From Stdlib Require Import List ZArith QArith Qreduction Lia Bool Ascii String.
From Stdlib Require Import Permutation.
Import ListNotations.

Set Implicit Arguments.

Open Scope string_scope.
Open Scope bool_scope.

(** ** Outcome of a call that may throw *)

Inductive result (A : Type) : Type :=
| Ok (value : A)
| Throw (message : string).

Arguments Ok {A} value.
Arguments Throw {A} message.

(* ================================================================== *)
(** * The screening scorer *)
(* ================================================================== *)

Module ScreeningScorer.

Open Scope Z_scope.

(** An element of the submitted [answers] array.  [Number.isInteger] holds
    exactly of [JsInt]; every other JavaScript value (a fraction, [NaN], a
    string, [null], ...) is [JsNotInteger]. *)
Inductive JsValue : Type :=
| JsInt (z : Z)
| JsNotInteger.

(** The argument of a scorer: [Array.isArray] holds exactly of [JsArray].
    The array comes from a parsed JSON body, so it has no holes. *)
Inductive JsArg : Type :=
| JsNotArray
| JsArray (elems : list JsValue).

Inductive SeverityBand : Type :=
| minimal | mild | moderate | moderate_severe | severe.

Definition bandName (b : SeverityBand) : string :=
  match b with
  | minimal => "minimal"
  | mild => "mild"
  | moderate => "moderate"
  | moderate_severe => "moderate-severe"
  | severe => "severe"
  end.

Record Interpretation : Type := { en : string; hi : string }.

Record ScreeningResult : Type := {
  score : Z;
  maxScore : Z;
  severityBand : SeverityBand;
  interpretation : Interpretation
}.

(** [Number.isInteger(answer) && answer >= 0 && answer <= 3] *)
Definition validAnswer (answer : JsValue) : bool :=
  match answer with
  | JsInt z => (0 <=? z) && (z <=? 3)
  | JsNotInteger => false
  end.

(** The numeric value added by [sum + answer]; the reduction only runs on
    arrays that passed [validAnswer] on every element. *)
Definition toNumber (answer : JsValue) : Z :=
  match answer with
  | JsInt z => z
  | JsNotInteger => 0
  end.

(** [answers.reduce((sum, answer) => sum + answer, 0)] *)
Definition totalScore (answers : list JsValue) : Z :=
  fold_left (fun sum answer => sum + toNumber answer) answers 0.

Definition getPHQ9Interpretation (b : SeverityBand) : Interpretation :=
  match b with
  | minimal =>
    {| en := "Minimal depression symptoms. Your responses suggest you may have few or no symptoms of depression.";
       hi := "न्यूनतम अवसाद के लक्षण। आपके उत्तर सुझाते हैं कि आपमें अवसाद के कम या कोई लक्षण नहीं हैं।" |}
  | mild =>
    {| en := "Mild depression symptoms. You may be experiencing some symptoms that could benefit from attention and self-care.";
       hi := "हल्के अवसाद के लक्षण। आप कुछ ऐसे लक्षण अनुभव कर रहे हों जिनमें देखभाल और ध्यान की आवश्यकता हो।" |}
  | moderate =>
    {| en := "Moderate depression symptoms. Consider speaking with a mental health professional about your symptoms.";
       hi := "मध्यम अवसाद के लक्षण। अपने लक्षणों के बारे में किसी मानसिक स्वास्थ्य पेशेवर से बात करने पर विचार करें।" |}
  | moderate_severe =>
    {| en := "Moderate to severe depression symptoms. It's recommended to seek professional help to address these symptoms.";
       hi := "मध्यम से गंभीर अवसाद के लक्षण। इन लक्षणों के लिए पेशेवर सहायता लेने की सिफारिश की जाती है।" |}
  | severe =>
    {| en := "Severe depression symptoms. Please consider seeking immediate professional help. These symptoms can significantly impact your daily life.";
       hi := "गंभीर अवसाद के लक्षण। कृपया तत्काल पेशेवर सहायता लेने पर विचार करें। ये लक्षण आपके दैनिक जीवन को महत्वपूर्ण रूप से प्रभावित कर सकते हैं।" |}
  end.

(** The GAD-7 table has no ['moderate-severe'] entry:
    [interpretations[severityBand] || interpretations.minimal]. *)
Definition getGAD7Interpretation (b : SeverityBand) : Interpretation :=
  match b with
  | minimal | moderate_severe =>
    {| en := "Minimal anxiety symptoms. Your responses suggest you may have few or no symptoms of anxiety.";
       hi := "न्यूनतम चिंता के लक्षण। आपके उत्तर सुझाते हैं कि आपमें चिंता के कम या कोई लक्षण नहीं हैं।" |}
  | mild =>
    {| en := "Mild anxiety symptoms. You may be experiencing some anxiety that could benefit from relaxation techniques and self-care.";
       hi := "हल्की चिंता के लक्षण। आप कुछ चिंता अनुभव कर रहे हों जिसमें आराम की तकनीक और स्वयं की देखभाल से फायदा हो सकता है।" |}
  | moderate =>
    {| en := "Moderate anxiety symptoms. Consider learning anxiety management techniques or speaking with a counsellor.";
       hi := "मध्यम चिंता के लक्षण। चिंता प्रबंधन तकनीक सीखने या काउंसलर से बात करने पर विचार करें।" |}
  | severe =>
    {| en := "Severe anxiety symptoms. It's recommended to seek professional help. These symptoms may be significantly impacting your daily functioning.";
       hi := "गंभीर चिंता के लक्षण। पेशेवर सहायता लेने की सिफारिश की जाती है। ये लक्षण आपके दैनिक कार्यकलाप को महत्वपूर्ण रूप से प्रभावित कर सकते हैं।" |}
  end.

Definition PHQ9_LENGTH_ERROR : string := "PHQ-9 requires exactly 9 answers".
Definition PHQ9_RANGE_ERROR : string := "PHQ-9 answers must be integers between 0 and 3".
Definition GAD7_LENGTH_ERROR : string := "GAD-7 requires exactly 7 answers".
Definition GAD7_RANGE_ERROR : string := "GAD-7 answers must be integers between 0 and 3".

Definition phq9Band (total : Z) : SeverityBand :=
  if total <=? 4 then minimal
  else if total <=? 9 then mild
  else if total <=? 14 then moderate
  else if total <=? 19 then moderate_severe
  else severe.

Definition gad7Band (total : Z) : SeverityBand :=
  if total <=? 4 then minimal
  else if total <=? 9 then mild
  else if total <=? 14 then moderate
  else severe.

Definition scorePHQ9 (arg : JsArg) : result ScreeningResult :=
  match arg with
  | JsNotArray => Throw PHQ9_LENGTH_ERROR
  | JsArray answers =>
    if negb (Nat.eqb (List.length answers) 9) then Throw PHQ9_LENGTH_ERROR
    else if negb (forallb validAnswer answers) then Throw PHQ9_RANGE_ERROR
    else
      let total := totalScore answers in
      let band := phq9Band total in
      Ok {| score := total;
            maxScore := 27;
            severityBand := band;
            interpretation := getPHQ9Interpretation band |}
  end.

Definition scoreGAD7 (arg : JsArg) : result ScreeningResult :=
  match arg with
  | JsNotArray => Throw GAD7_LENGTH_ERROR
  | JsArray answers =>
    if negb (Nat.eqb (List.length answers) 7) then Throw GAD7_LENGTH_ERROR
    else if negb (forallb validAnswer answers) then Throw GAD7_RANGE_ERROR
    else
      let total := totalScore answers in
      let band := gad7Band total in
      Ok {| score := total;
            maxScore := 21;
            severityBand := band;
            interpretation := getGAD7Interpretation band |}
  end.

End ScreeningScorer.

(* ================================================================== *)
(** * The chat classifier *)
(* ================================================================== *)

Module ChatClassifier.

(** ** Strings *)

(** [s.includes(k)]: [k] occurs in [s] as a contiguous run of code units. *)
Fixpoint includes (s k : string) : bool :=
  prefix k s ||
  match s with
  | EmptyString => false
  | String _ rest => includes rest k
  end.

(** Case folding of the ASCII letters, the instance of [toLowerCase] used to
    run the model on concrete ASCII texts. *)
Definition asciiLowerChar (c : ascii) : ascii :=
  let n := nat_of_ascii c in
  if Nat.leb 65 n && Nat.leb n 90 then ascii_of_nat (n + 32) else c.

Fixpoint asciiToLowerCase (s : string) : string :=
  match s with
  | EmptyString => EmptyString
  | String c rest => String (asciiLowerChar c) (asciiToLowerCase rest)
  end.

(** ** JavaScript numbers and [Array.prototype.sort] *)

(** [x < y] on numbers. *)
Definition Qlt_bool (x y : Q) : bool :=
  match (x ?= y)%Q with
  | Lt => true
  | _ => false
  end.

Section JsSort.
Variable A : Type.
(** [compareFn a b]: positive when [a] must come after [b]. *)
Variable compareFn : A -> A -> Q.

Fixpoint sortInsert (x : A) (sorted : list A) : list A :=
  match sorted with
  | [] => [x]
  | y :: rest =>
    if Qlt_bool 0 (compareFn x y) then y :: sortInsert x rest
    else x :: sorted
  end.

(** [l.sort(compareFn)].  The sort is stable, so its result is fixed by
    the comparator alone; insertion of each element in front of the
    already sorted remainder computes it. *)
Fixpoint jsSort (l : list A) : list A :=
  match l with
  | [] => []
  | x :: rest => sortInsert x (jsSort rest)
  end.
End JsSort.

(** ** Data model *)

Inductive Category : Type :=
| ANXIETY | DEPRESSION | STRESS_BURNOUT | SLEEP | ACADEMIC_STRESS
| SOCIAL_ISOLATION | CRISIS | GENERAL.

Definition Category_eqb (a b : Category) : bool :=
  match a, b with
  | ANXIETY, ANXIETY | DEPRESSION, DEPRESSION
  | STRESS_BURNOUT, STRESS_BURNOUT | SLEEP, SLEEP
  | ACADEMIC_STRESS, ACADEMIC_STRESS | SOCIAL_ISOLATION, SOCIAL_ISOLATION
  | CRISIS, CRISIS | GENERAL, GENERAL => true
  | _, _ => false
  end.

Module SEVERITY_LEVELS.
Inductive t : Type := LOW | MODERATE | HIGH | CRISIS.

Definition eqb (a b : t) : bool :=
  match a, b with
  | LOW, LOW | MODERATE, MODERATE | HIGH, HIGH | CRISIS, CRISIS => true
  | _, _ => false
  end.

(** The escalation order low < moderate < high (< crisis). *)
Definition rank (s : t) : nat :=
  match s with
  | LOW => 0
  | MODERATE => 1
  | HIGH => 2
  | CRISIS => 3
  end.
End SEVERITY_LEVELS.

Definition Severity : Type := SEVERITY_LEVELS.t.

Record Classification : Type := {
  category : Category;
  severity : Severity;
  crisis : bool;
  confidence : Q
}.

Inductive Sender : Type := USER | BOT.

(** An entry of the [history] argument. *)
Record ChatMessage : Type := {
  sender : Sender;
  text : string;
  sentAt : Z
}.

(** An entry of the [screenings] argument, as [classify] reads it.
    [createdAt] is the time value of [new Date(s.createdAt)] in milliseconds;
    it is [None] when that date is invalid, which is what a missing or
    unparseable [createdAt] gives.  [severityBand] is [None] when the
    property is missing. *)
Record Screening : Type := {
  createdAt : option Z;
  severityBand : option string
}.

(** ** Trigger tables *)

Definition CRISIS_KEYWORDS : list string := [
  "suicidal"; "end it all"; "harm myself"; "self-harm"; "kill myself";
  "life not worth living"; "want to die"; "suicide"; "cut myself";
  "overdose"; "jump"; "hanging"; "razor"; "pills"; "end my life";
  "better off dead"; "no point living"; "can't go on"
].

(** The entries of [CATEGORY_TRIGGERS] in declaration order, which is the
    order [Object.entries] yields them in. *)
Definition CATEGORY_TRIGGERS : list (Category * list string) := [
  (ANXIETY, [
    "anxious"; "nervous"; "panic"; "racing heart"; "short of breath"; "worry";
    "restless"; "tense"; "fear"; "phobia"; "overwhelmed"; "stressed out";
    "can't calm down"; "butterflies"; "sweating"; "trembling"; "dread"
  ]);
  (DEPRESSION, [
    "sad"; "depressed"; "hopeless"; "worthless"; "empty"; "lonely";
    "no energy"; "tired all the time"; "can't sleep"; "no motivation";
    "nothing matters"; "give up"; "pointless"; "numb"; "crying";
    "no interest"; "isolated"; "darkness"
  ]);
  (STRESS_BURNOUT, [
    "stressed"; "burnout"; "exhausted"; "overwhelmed"; "pressure";
    "too much work"; "can't cope"; "breaking point"; "workload";
    "deadline stress"; "performance anxiety"; "juggling too much"
  ]);
  (SLEEP, [
    "can't sleep"; "insomnia"; "nightmares"; "tired"; "fatigue";
    "staying up late"; "tossing and turning"; "sleep problems";
    "waking up early"; "restless sleep"; "no rest"
  ]);
  (ACADEMIC_STRESS, [
    "exam stress"; "failing"; "grades"; "study pressure"; "academic pressure";
    "can't focus"; "procrastination"; "behind in studies"; "test anxiety";
    "assignment stress"; "performance pressure"; "academic failure"
  ]);
  (SOCIAL_ISOLATION, [
    "alone"; "lonely"; "no friends"; "isolated"; "social anxiety";
    "can't connect"; "withdrawn"; "nobody understands"; "left out";
    "social pressure"; "awkward"; "shy"
  ]);
  (CRISIS, CRISIS_KEYWORDS)
].

(** ** classify *)

Definition MS_PER_DAY : Z := 1000 * 60 * 60 * 24.

(** [(Date.now() - new Date(s.createdAt)) / (1000 * 60 * 60 * 24)], with
    [now] the value of [Date.now()]; [None] is [NaN]. *)
Definition daysDiff (now : Z) (s : Screening) : option Q :=
  match createdAt s with
  | Some t => Some (inject_Z (now - t) / inject_Z MS_PER_DAY)%Q
  | None => None
  end.

(** The filter predicate [daysDiff <= 60]; a comparison with [NaN] is
    false.  Time values are integers, and the double quotient of an integer
    by 86400000 is at most 60 exactly when the rational quotient is. *)
Definition isRecent (now : Z) (s : Screening) : bool :=
  match daysDiff now s with
  | Some d => Qle_bool d 60
  | None => false
  end.

(** [new Date(b.createdAt) - new Date(a.createdAt)]; the sort reads a [NaN]
    from its comparator as [0]. *)
Definition byNewestFirst (a b : Screening) : Q :=
  match createdAt a, createdAt b with
  | Some ta, Some tb => inject_Z (tb - ta)
  | _, _ => 0%Q
  end.

(** [([,a], [,b]) => b - a] *)
Definition byScoreDescending (x y : Category * Q) : Q :=
  (snd y - snd x)%Q.

(** [latestScreening.severityBand === name] *)
Definition bandIs (s : Screening) (name : string) : bool :=
  match severityBand s with
  | Some band => String.eqb band name
  | None => false
  end.

(** The body of [if (recentScreenings.length > 0) { ... }]: the head of the
    sorted array exists exactly when the filtered array is not empty. *)
Definition augmentSeverity (now : Z) (screenings : list Screening)
    (severity : Severity) : Severity :=
  let recentScreenings := filter (isRecent now) screenings in
  match jsSort byNewestFirst recentScreenings with
  | [] => severity
  | latestScreening :: _ =>
    if bandIs latestScreening "severe" || bandIs latestScreening "moderate-severe"
    then SEVERITY_LEVELS.HIGH
    else if bandIs latestScreening "moderate"
            && SEVERITY_LEVELS.eqb severity SEVERITY_LEVELS.LOW
    then SEVERITY_LEVELS.MODERATE
    else severity
  end.

(** The severity derived from the keyword density alone.  The literals
    [0.3] and [0.6] denote the doubles next below 3/10 and 3/5; no ratio of
    the tables (denominators 11, 12, 17 and 18) equals 3/10 or 3/5, so the
    comparisons agree with the exact ones. *)
Definition densitySeverity (confidence : Q) : Severity :=
  let severity := SEVERITY_LEVELS.LOW in
  let severity :=
    if Qlt_bool (3 # 10) confidence then SEVERITY_LEVELS.MODERATE else severity in
  let severity :=
    if Qlt_bool (6 # 10) confidence then SEVERITY_LEVELS.HIGH else severity in
  severity.

Section Classify.

(** [String.prototype.toLowerCase]. *)
Variable toLowerCase : string -> string.

(** [normalizedText.includes(keyword.toLowerCase())] *)
Definition matchesKeyword (normalizedText keyword : string) : bool :=
  includes normalizedText (toLowerCase keyword).

Definition hasCrisisKeywords (normalizedText : string) : bool :=
  existsb (matchesKeyword normalizedText) CRISIS_KEYWORDS.

(** [matches / keywords.length], kept in lowest terms.  Every list of the
    table is non-empty. *)
Definition matchRatio (normalizedText : string) (keywords : list string) : Q :=
  let matches := List.length (filter (matchesKeyword normalizedText) keywords) in
  Qred (Z.of_nat matches # Pos.of_nat (List.length keywords)).

(** The entries of [categoryScores] after the [forEach], in insertion
    order. *)
Definition categoryScores (normalizedText : string) : list (Category * Q) :=
  flat_map
    (fun entry : Category * list string =>
       let (category, keywords) := entry in
       if Category_eqb category CRISIS then []
       else [(category, matchRatio normalizedText keywords)])
    CATEGORY_TRIGGERS.

(** [Object.entries(categoryScores).sort(([,a], [,b]) => b - a)[0]] *)
Definition bestCategory (normalizedText : string) : option (Category * Q) :=
  hd_error (jsSort byScoreDescending (categoryScores normalizedText)).

Definition classify (now : Z) (text : string) (history : list ChatMessage)
    (screenings : list Screening) : Classification :=
  let normalizedText := toLowerCase text in
  if hasCrisisKeywords normalizedText then
    {| category := CRISIS;
       severity := SEVERITY_LEVELS.CRISIS;
       crisis := true;
       confidence := 1 |}
  else
    match bestCategory normalizedText with
    | None =>
      {| category := GENERAL;
         severity := SEVERITY_LEVELS.LOW;
         crisis := false;
         confidence := 0 |}
    | Some (category, confidence) =>
      if Qeq_bool confidence 0 then
        {| category := GENERAL;
           severity := SEVERITY_LEVELS.LOW;
           crisis := false;
           confidence := 0 |}
      else
        {| category := category;
           severity := augmentSeverity now screenings (densitySeverity confidence);
           crisis := false;
           confidence := confidence |}
    end.

End Classify.

(** ** Response templates *)

(** The two shapes of object stored in [RESPONSE_TEMPLATES]. *)
Inductive Template : Type :=
| SupportTemplate (validation : string) (strategies : list string)
    (psychoeducation next_steps : string)
| CrisisTemplate (immediate_safety crisis_resources support_available
    next_steps : string).

(** Property reads on a template; [None] is [undefined]. *)
Definition get_validation (t : Template) : option string :=
  match t with SupportTemplate v _ _ _ => Some v | CrisisTemplate _ _ _ _ => None end.
Definition get_strategies (t : Template) : option (list string) :=
  match t with SupportTemplate _ s _ _ => Some s | CrisisTemplate _ _ _ _ => None end.
Definition get_psychoeducation (t : Template) : option string :=
  match t with SupportTemplate _ _ p _ => Some p | CrisisTemplate _ _ _ _ => None end.
Definition get_next_steps (t : Template) : option string :=
  match t with SupportTemplate _ _ _ n => Some n | CrisisTemplate _ _ _ n => Some n end.
Definition get_immediate_safety (t : Template) : option string :=
  match t with CrisisTemplate i _ _ _ => Some i | SupportTemplate _ _ _ _ => None end.
Definition get_crisis_resources (t : Template) : option string :=
  match t with CrisisTemplate _ c _ _ => Some c | SupportTemplate _ _ _ _ => None end.
Definition get_support_available (t : Template) : option string :=
  match t with CrisisTemplate _ _ s _ => Some s | SupportTemplate _ _ _ _ => None end.

(** A value interpolated into a template literal. *)
Definition interpolate (v : option string) : string :=
  match v with
  | Some s => s
  | None => "undefined"
  end.

Definition TEMPLATES_EN (c : Category) : option Template :=
  match c with
  | ANXIETY => Some (SupportTemplate
      "I understand you're feeling anxious right now. That's a very real and valid experience."
      [ "Try the 4-7-8 breathing technique: Breathe in for 4, hold for 7, exhale for 8.";
        "Ground yourself using the 5-4-3-2-1 technique: Name 5 things you see, 4 you can touch, 3 you hear, 2 you smell, 1 you taste.";
        "Progressive muscle relaxation can help: Tense and release each muscle group from your toes to your head." ]
      "Anxiety is your body's natural response to stress. While uncomfortable, these feelings are temporary and manageable."
      "Consider taking our anxiety screening (GAD-7) or booking a session with a counsellor for ongoing support.")
  | DEPRESSION => Some (SupportTemplate
      "I hear that you're going through a difficult time. These feelings of sadness and emptiness are real."
      [ "Try to maintain a daily routine, even a simple one.";
        "Engage in small, achievable activities that used to bring you joy.";
        "Consider reaching out to a trusted friend or family member." ]
      "Depression affects how you think, feel, and act. It's a medical condition that can be treated effectively."
      "Taking our depression screening (PHQ-9) can help assess your symptoms. Professional support is available.")
  | STRESS_BURNOUT => Some (SupportTemplate
      "Feeling overwhelmed by stress and responsibilities is more common than you might think."
      [ "Break large tasks into smaller, manageable steps.";
        "Practice saying 'no' to additional commitments when possible.";
        "Schedule regular breaks and self-care activities." ]
      "Chronic stress can lead to burnout, affecting your physical and mental health. Recovery is possible with proper support."
      "Consider stress management techniques and speaking with a counsellor about workload management.")
  | SLEEP => Some (SupportTemplate
      "Sleep difficulties can be frustrating and impact many areas of your life."
      [ "Maintain a consistent sleep schedule, even on weekends.";
        "Create a relaxing bedtime routine without screens.";
        "Keep your bedroom cool, dark, and quiet." ]
      "Good sleep hygiene is essential for mental health. Sleep problems often improve with consistent practices."
      "If sleep problems persist, consider discussing them with a healthcare provider or counsellor.")
  | ACADEMIC_STRESS => Some (SupportTemplate
      "Academic pressure can feel overwhelming, especially when you want to do well."
      [ "Break study sessions into focused 25-minute blocks with short breaks.";
        "Create a realistic study schedule that includes time for rest.";
        "Reach out to teachers or academic advisors when you need help." ]
      "Academic stress is common among students. Learning effective study strategies can reduce anxiety and improve performance."
      "Our counsellors can help with study strategies and managing academic pressure.")
  | SOCIAL_ISOLATION => Some (SupportTemplate
      "Feeling disconnected from others can be lonely and painful."
      [ "Start with small social interactions, like greeting classmates or colleagues.";
        "Join clubs or activities aligned with your interests.";
        "Consider online communities related to your hobbies or concerns." ]
      "Social connections are vital for mental health. Building relationships takes time and practice."
      "Our peer support forum might be a good place to start connecting with others who understand.")
  | CRISIS => Some (CrisisTemplate
      "I'm very concerned about what you've shared. Your life has value, and help is available right now."
      "Please reach out immediately to a crisis helpline or emergency services if you're in immediate danger."
      "You don't have to go through this alone. Professional help and support are available."
      "Please consider speaking with a mental health professional as soon as possible.")
  | GENERAL => None
  end.

(** The Hindi table holds the ANXIETY entry only. *)
Definition TEMPLATES_HI (c : Category) : option Template :=
  match c with
  | ANXIETY => Some (SupportTemplate
      "मैं समझ सकता हूँ कि आप अभी चिंतित महसूस कर रहे हैं। यह एक वास्तविक और मान्य अनुभव है।"
      [ "4-7-8 श्वास तकनीक आज़माएं: 4 की गिनती में सांस लें, 7 तक रोकें, 8 में छोड़ें।";
        "5-4-3-2-1 तकनीक से खुद को स्थिर करें: 5 चीजें देखें, 4 को छुएं, 3 सुनें, 2 सूंघें, 1 चखें।" ]
      "चिंता तनाव के लिए आपके शरीर की प्राकृतिक प्रतिक्रिया है। असहज होने पर भी, ये भावनाएं अस्थायी हैं।"
      "हमारी चिंता जांच (GAD-7) लेने या काउंसलर के साथ सत्र बुक करने पर विचार करें।")
  | _ => None
  end.

(** The property names every object literal inherits from
    [Object.prototype].  [RESPONSE_TEMPLATES[language]] is truthy for them,
    and the value found has none of the category properties. *)
Definition OBJECT_PROTOTYPE_KEYS : list string := [
  "constructor"; "__proto__"; "hasOwnProperty"; "isPrototypeOf";
  "propertyIsEnumerable"; "toLocaleString"; "toString"; "valueOf";
  "__defineGetter__"; "__defineSetter__"; "__lookupGetter__";
  "__lookupSetter__"
].

(** [RESPONSE_TEMPLATES[language] || RESPONSE_TEMPLATES.en] *)
Definition templatesFor (language : string) : Category -> option Template :=
  if String.eqb language "en" then TEMPLATES_EN
  else if String.eqb language "hi" then TEMPLATES_HI
  else if existsb (String.eqb language) OBJECT_PROTOTYPE_KEYS then fun _ => None
  else TEMPLATES_EN.

Record ResponseBundle : Type := {
  message : string;
  quickReplies : list string;
  showCrisisBanner : bool;
  nextSteps : option string;
  echoedCategory : option Category;
  echoedSeverity : option Severity
}.

Definition TYPE_ERROR : string :=
  "TypeError: Cannot read properties of undefined".

Definition GENERIC_MESSAGE : string :=
  "I'm here to listen and support you. Can you tell me more about what's on your mind?".

(** ** buildResponse *)

Definition buildResponse (classification : Classification) (language : string)
    : result ResponseBundle :=
  let templates := templatesFor language in
  if crisis classification then
    match templates CRISIS with
    | None => Throw TYPE_ERROR
    | Some template =>
      Ok {| message :=
              interpolate (get_immediate_safety template) ++ " " ++
              interpolate (get_crisis_resources template) ++ " " ++
              interpolate (get_support_available template);
            quickReplies :=
              [ "Show crisis resources"; "Connect with counsellor"; "Find helplines" ];
            showCrisisBanner := true;
            nextSteps := get_next_steps template;
            echoedCategory := None;
            echoedSeverity := None |}
    end
  else
    match templates (category classification) with
    | None =>
      Ok {| message := GENERIC_MESSAGE;
            quickReplies :=
              [ "Take screening test"; "Book counselling"; "Browse resources" ];
            showCrisisBanner := false;
            nextSteps := None;
            echoedCategory := None;
            echoedSeverity := None |}
    | Some template =>
      match get_strategies template with
      | None => Throw TYPE_ERROR
      | Some all_strategies =>
        let strategies := firstn 2 all_strategies in
        Ok {| message :=
                interpolate (get_validation template) ++ " " ++
                String.concat " " strategies ++ " " ++
                interpolate (get_psychoeducation template);
              quickReplies :=
                [ "Tell me more"; "Take screening"; "Book session"; "Browse resources" ];
              showCrisisBanner := false;
              nextSteps := get_next_steps template;
              echoedCategory := Some (category classification);
              echoedSeverity := Some (severity classification) |}
      end
    end.

End ChatClassifier.

(* ================================================================== *)
(** * Property reads on object literals *)
(* ================================================================== *)

Module JsObject.

(** An object literal, by its own members in declaration order. *)
Definition Literal (V : Type) : Type := list (string * V).

(** The own member [key] of a literal, if it has one. *)
Fixpoint ownProperty (V : Type) (key : string) (o : Literal V) : option V :=
  match o with
  | [] => None
  | (k, v) :: rest => if String.eqb key k then Some v else ownProperty key rest
  end.

(** What [o[key]] evaluates to for a literal [o]: an own member, a member
    inherited from [Object.prototype] (a function or an object, hence
    truthy), or [undefined]. *)
Inductive Member (V : Type) : Type :=
| Own (value : V)
| Inherited (key : string)
| Undefined.

Arguments Own {V} value.
Arguments Inherited {V} key.
Arguments Undefined {V}.

Definition get (V : Type) (o : Literal V) (key : string) : Member V :=
  match ownProperty key o with
  | Some v => Own v
  | None =>
    if existsb (String.eqb key) ChatClassifier.OBJECT_PROTOTYPE_KEYS
    then Inherited key
    else Undefined
  end.

(** [o[key] || o[fallback]], for a literal whose own members are truthy. *)
Definition getOr (V : Type) (o : Literal V) (key fallback : string) : Member V :=
  match get o key with
  | Undefined => get o fallback
  | found => found
  end.

End JsObject.

(* ================================================================== *)
(** * Screening recommendations *)
(* ================================================================== *)

Module ScreeningRecommendations.

Import ScreeningScorer JsObject.

(** The [type] argument: one of the two members of [recommendations], or
    [OTHER_TYPE], a string that names no member of that object. *)
Inductive ScreeningType : Type := PHQ9 | GAD7 | OTHER_TYPE.

(** The guidance lists of one severity band, by language. *)
Definition LanguageEntry : Type := Literal (list string).

Definition RECOMMENDATIONS_PHQ9 (severityBand : SeverityBand) : option LanguageEntry :=
  match severityBand with
  | minimal => Some
    [ ("en",
       [ "Continue maintaining good mental health practices";
         "Stay connected with friends and family";
         "Engage in regular physical activity";
         "Practice stress management techniques" ]);
      ("hi",
       [ "अच्छी मानसिक स्वास्थ्य प्रथाओं को बनाए रखना जारी रखें";
         "दोस्तों और परिवार के साथ जुड़े रहें";
         "नियमित शारीरिक गतिविधि में भाग लें" ]) ]
  | mild => Some
    [ ("en",
       [ "Monitor your mood and symptoms";
         "Practice self-care and relaxation techniques";
         "Maintain social connections";
         "Consider lifestyle changes like regular exercise" ]) ]
  | moderate => Some
    [ ("en",
       [ "Consider speaking with a mental health professional";
         "Explore counselling or therapy options";
         "Practice daily mood tracking";
         "Build a support network" ]) ]
  | moderate_severe => Some
    [ ("en",
       [ "Seek professional mental health support";
         "Consider therapy or counselling";
         "Reach out to trusted friends or family";
         "Explore treatment options with a healthcare provider" ]) ]
  | severe => Some
    [ ("en",
       [ "Seek immediate professional help";
         "Contact a mental health crisis line if needed";
         "Don't hesitate to reach out for support";
         "Consider speaking with your healthcare provider about treatment options" ]) ]
  end.

Definition RECOMMENDATIONS_GAD7 (severityBand : SeverityBand) : option LanguageEntry :=
  match severityBand with
  | minimal => Some
    [ ("en",
       [ "Continue current stress management practices";
         "Maintain healthy lifestyle habits";
         "Stay socially connected";
         "Practice mindfulness or relaxation when stressed" ]) ]
  | mild => Some
    [ ("en",
       [ "Learn and practice anxiety management techniques";
         "Try deep breathing and relaxation exercises";
         "Monitor anxiety triggers";
         "Maintain regular sleep and exercise routines" ]) ]
  | moderate => Some
    [ ("en",
       [ "Consider learning cognitive-behavioral techniques";
         "Speak with a counsellor about anxiety management";
         "Practice regular relaxation exercises";
         "Consider joining a support group" ]) ]
  | moderate_severe => None
  | severe => Some
    [ ("en",
       [ "Seek professional help for anxiety management";
         "Consider therapy or counselling";
         "Learn about anxiety disorders and treatment options";
         "Build a strong support network" ]) ]
  end.

(** [recommendations[type] || recommendations.PHQ9] *)
Definition typeRecommendationsOf (type : ScreeningType)
    : SeverityBand -> option LanguageEntry :=
  match type with
  | PHQ9 => RECOMMENDATIONS_PHQ9
  | GAD7 => RECOMMENDATIONS_GAD7
  | OTHER_TYPE => RECOMMENDATIONS_PHQ9
  end.

(** [typeRecommendations[severityBand] || typeRecommendations.minimal] *)
Definition severityRecommendationsOf
    (typeRecommendations : SeverityBand -> option LanguageEntry)
    (severityBand : SeverityBand) : option LanguageEntry :=
  match typeRecommendations severityBand with
  | Some entry => Some entry
  | None => typeRecommendations minimal
  end.

(** [severityRecommendations[language] || severityRecommendations.en || []];
    an array is truthy, also when it is empty. *)
Definition getRecommendations (type : ScreeningType)
    (severityBand : SeverityBand) (language : string)
    : result (Member (list string)) :=
  let typeRecommendations := typeRecommendationsOf type in
  match severityRecommendationsOf typeRecommendations severityBand with
  | None => Throw ChatClassifier.TYPE_ERROR
  | Some severityRecommendations =>
    match getOr severityRecommendations language "en" with
    | Undefined => Ok (Own [])
    | found => Ok found
    end
  end.

End ScreeningRecommendations.

(* ================================================================== *)
(** * The query for recent screenings *)
(* ================================================================== *)

Module RecentScreenings.

(** [new Date(Date.now() - 60 * 24 * 60 * 60 * 1000)], as a time value. *)
Definition sixtyDaysAgo (now : Z) : Z := (now - 60 * 24 * 60 * 60 * 1000)%Z.

(** The clause [createdAt: { gte: sixtyDaysAgo }] on a row created at
    [createdAt]. *)
Definition createdAtClause (now : Z) (createdAt : Z) : bool :=
  (sixtyDaysAgo now <=? createdAt)%Z.

End RecentScreenings.

(* ================================================================== *)
(** * The screening routes *)
(* ================================================================== *)

Module ScreeningRoutes.

Import ScreeningScorer JsObject ScreeningRecommendations.

(** The row written by [prisma.screening.create], as the routes read it
    back. *)
Record StoredScreening : Type := {
  storedType : ScreeningType;
  storedAnswers : JsArg;
  storedScore : Z;
  storedSeverityBand : SeverityBand
}.

(** The [results] object of a response. *)
Record Results : Type := {
  resultScore : Z;
  resultMaxScore : Z;
  resultSeverityBand : SeverityBand;
  resultInterpretation : Member string;
  resultRecommendations : Member (list string)
}.

(** What a handler does with the request. *)
Inductive Outcome (A : Type) : Type :=
| Json (body : A)
| BadRequest (message : string)
| Rethrown (message : string).

Arguments Json {A} body.
Arguments BadRequest {A} message.
Arguments Rethrown {A} message.

(** [error.message.includes('requires exactly') ||
     error.message.includes('must be integers')] *)
Definition isInvalidScreeningData (message : string) : bool :=
  ChatClassifier.includes message "requires exactly" ||
  ChatClassifier.includes message "must be integers".

(** [scoringResult.interpretation[language] || scoringResult.interpretation.en];
    the empty string is falsy. *)
Definition interpretationFor (i : Interpretation) (language : string)
    : Member string :=
  match get [("en", en i); ("hi", hi i)] language with
  | Own "" => Own (en i)
  | Undefined => Own (en i)
  | found => found
  end.

(** The body of the [try] block of [POST /phq9] and [POST /gad7], which an
    identified session reaches, with the database writes taken to succeed,
    followed by the [catch] clause. *)
Definition postScreening (type : ScreeningType)
    (scorer : JsArg -> result ScreeningResult)
    (answers : JsArg) (language : string)
    : Outcome (StoredScreening * Results) :=
  match scorer answers with
  | Ok scoringResult =>
    match getRecommendations type (severityBand scoringResult) language with
    | Ok recommendations =>
      Json
        ({| storedType := type;
            storedAnswers := answers;
            storedScore := score scoringResult;
            storedSeverityBand := severityBand scoringResult |},
         {| resultScore := score scoringResult;
            resultMaxScore := maxScore scoringResult;
            resultSeverityBand := severityBand scoringResult;
            resultInterpretation :=
              interpretationFor (interpretation scoringResult) language;
            resultRecommendations := recommendations |})
    | Throw message =>
      if isInvalidScreeningData message then BadRequest message
      else Rethrown message
    end
  | Throw message =>
    if isInvalidScreeningData message then BadRequest message
    else Rethrown message
  end.

Definition postPHQ9 (answers : JsArg) (language : string)
    : Outcome (StoredScreening * Results) :=
  postScreening PHQ9 scorePHQ9 answers language.

Definition postGAD7 (answers : JsArg) (language : string)
    : Outcome (StoredScreening * Results) :=
  postScreening GAD7 scoreGAD7 answers language.

(** [GET /:id], once the row is found: the score and the band are the
    stored ones, [maxScore] and the interpretation come from scoring the
    stored answers again.  The handler has no [catch] of its own. *)
Definition getScreening (screening : StoredScreening) (language : string)
    : Outcome Results :=
  let scoringFunction :=
    match storedType screening with
    | PHQ9 => scorePHQ9
    | _ => scoreGAD7
    end in
  match scoringFunction (storedAnswers screening) with
  | Throw message => Rethrown message
  | Ok scoringResult =>
    match getRecommendations (storedType screening)
            (storedSeverityBand screening) language with
    | Throw message => Rethrown message
    | Ok recommendations =>
      Json {| resultScore := storedScore screening;
              resultMaxScore := maxScore scoringResult;
              resultSeverityBand := storedSeverityBand screening;
              resultInterpretation :=
                interpretationFor (interpretation scoringResult) language;
              resultRecommendations := recommendations |}
    end
  end.




End ScreeningRoutes.

(* ================================================================== *)
(** * Vocabulary of the specification: screening scorer *)
(* ================================================================== *)

Module ScorerSpec.

Import ScreeningScorer.
Open Scope Z_scope.

(** The sum of an answer vector. *)
Definition sumAnswers (zs : list Z) : Z := fold_right Z.add 0 zs.

(** Every answer lies on the 0..3 scale. *)
Definition inScale (zs : list Z) : Prop := Forall (fun z => 0 <= z <= 3) zs.

(** The argument is a sequence of exactly [n] integers, each in [0,3]. *)
Definition validVector (n : nat) (arg : JsArg) : Prop :=
  exists zs, arg = JsArray (map JsInt zs) /\ List.length zs = n /\ inScale zs.

(** The argument is no array, or an array of another length than [n]. *)
Definition wrongLength (n : nat) (arg : JsArg) : Prop :=
  match arg with
  | JsNotArray => True
  | JsArray l => List.length l <> n
  end.

(** The argument is an array of [n] elements, one of which is no integer
    of the scale. *)
Definition wrongElement (n : nat) (arg : JsArg) : Prop :=
  match arg with
  | JsNotArray => False
  | JsArray l =>
    List.length l = n /\
    exists v, In v l /\ (forall z, v = JsInt z -> z < 0 \/ 3 < z)
  end.

(** The published PHQ-9 band table, by inclusive upper bounds. *)
Definition PHQ9_table (s : Z) (b : SeverityBand) : Prop :=
  (s <= 4 -> b = minimal) /\
  (4 < s <= 9 -> b = mild) /\
  (9 < s <= 14 -> b = moderate) /\
  (14 < s <= 19 -> b = moderate_severe) /\
  (19 < s -> b = severe).

(** The published GAD-7 band table. *)
Definition GAD7_table (s : Z) (b : SeverityBand) : Prop :=
  (s <= 4 -> b = minimal) /\
  (4 < s <= 9 -> b = mild) /\
  (9 < s <= 14 -> b = moderate) /\
  (14 < s -> b = severe).

End ScorerSpec.

(* ================================================================== *)
(** * Vocabulary of the specification: chat classifier *)
(* ================================================================== *)

Module ClassifierSpec.

Import ChatClassifier.

(** [k] occurs in [s] as a substring. *)
Definition Substring (k s : string) : Prop :=
  exists before after, s = before ++ k ++ after.

(** The categories that are scored, in declaration order. *)
Definition ENUMERATION : list Category :=
  [ANXIETY; DEPRESSION; STRESS_BURNOUT; SLEEP; ACADEMIC_STRESS; SOCIAL_ISOLATION].

(** The keyword list of a category in [CATEGORY_TRIGGERS]. *)
Definition keywordsOf (c : Category) : list string :=
  match find (fun entry => Category_eqb (fst entry) c) CATEGORY_TRIGGERS with
  | Some entry => snd entry
  | None => []
  end.

Definition SIXTY_DAYS_MS : Z := 60 * 24 * 60 * 60 * 1000.

(** The screening has a valid creation date and was created within the
    last 60 days: its age [now - createdAt] is at most 60 days. *)
Definition withinLast60Days (now : Z) (s : Screening) : bool :=
  match createdAt s with
  | Some t => (now - t <=? SIXTY_DAYS_MS)%Z
  | None => false
  end.

(** [s] is a most recently created screening among those of [screenings]
    within the last 60 days. *)
Definition mostRecent (now : Z) (screenings : list Screening) (s : Screening) : Prop :=
  In s screenings /\
  withinLast60Days now s = true /\
  forall s' t t',
    In s' screenings -> withinLast60Days now s' = true ->
    createdAt s = Some t -> createdAt s' = Some t' -> (t' <= t)%Z.

(** [new Date(s.createdAt)] is a valid date. *)
Definition hasValidDate (s : Screening) : bool :=
  match createdAt s with
  | Some _ => true
  | None => false
  end.

(** A screening record with both a valid [createdAt] and a [severityBand]. *)
Definition wellFormedScreening (s : Screening) : bool :=
  hasValidDate s &&
  match severityBand s with
  | Some _ => true
  | None => false
  end.

Definition CRISIS_RESULT : Classification :=
  {| category := CRISIS;
     severity := SEVERITY_LEVELS.CRISIS;
     crisis := true;
     confidence := 1 |}.

Definition GENERAL_RESULT : Classification :=
  {| category := GENERAL;
     severity := SEVERITY_LEVELS.LOW;
     crisis := false;
     confidence := 0 |}.

(** A response bundle a client can show. *)
Definition usable (b : ResponseBundle) : Prop :=
  message b <> "" /\ quickReplies b <> [].

Section CaseFolding.

Variable toLowerCase : string -> string.

(** [text] contains [keyword] as a case-insensitive substring. *)
Definition containsKeyword (text keyword : string) : Prop :=
  Substring (toLowerCase keyword) (toLowerCase text).

(** [text] contains an entry of the CRISIS keyword list. *)
Definition mentionsCrisis (text : string) : Prop :=
  exists keyword, In keyword CRISIS_KEYWORDS /\ containsKeyword text keyword.

(** [text] contains a keyword of a non-crisis category. *)
Definition mentionsCategory (text : string) : Prop :=
  exists c keyword,
    In c ENUMERATION /\ In keyword (keywordsOf c) /\ containsKeyword text keyword.

(** The number of keywords of [c] that [text] contains. *)
Definition matchCount (text : string) (c : Category) : nat :=
  List.length
    (filter (fun keyword => includes (toLowerCase text) (toLowerCase keyword))
            (keywordsOf c)).

(** The match ratio of a category: matched keywords divided by the length
    of its keyword list. *)
Definition ratioOf (text : string) (c : Category) : Q :=
  (inject_Z (Z.of_nat (matchCount text c)) /
   inject_Z (Z.of_nat (List.length (keywordsOf c))))%Q.

End CaseFolding.

(** ** Concrete inputs *)

Definition DAY : Z := 86400000.

(** Some instant taken as [Date.now()]: 2025-01-01T00:00:00Z. *)
Definition NOW : Z := 1735689600000.

Definition screeningAgedDays (days : Z) (band : string) : Screening :=
  {| createdAt := Some (NOW - days * DAY)%Z; severityBand := Some band |}.

(** A record without [severityBand], created five days ago. *)
Definition bandlessScreening : Screening :=
  {| createdAt := Some (NOW - 5 * DAY)%Z; severityBand := None |}.

(** A record without a usable [createdAt]. *)
Definition datelessScreening : Screening :=
  {| createdAt := None; severityBand := Some "severe" |}.

Definition someHistory : list ChatMessage :=
  [ {| sender := USER; text := "I feel hopeless and worthless"; sentAt := (NOW - DAY)%Z |};
    {| sender := BOT; text := "Tell me more"; sentAt := (NOW - DAY + 1000)%Z |} ].

End ClassifierSpec.

(* ================================================================== *)
(** * Vocabulary for the services and the routes *)
(* ================================================================== *)

Module ServiceSpec.

Import ScreeningScorer JsObject ScreeningRecommendations ScreeningRoutes.

(** The position of a band on the scale from minimal to severe. *)
Definition bandRank (b : SeverityBand) : nat :=
  match b with
  | minimal => 0
  | mild => 1
  | moderate => 2
  | moderate_severe => 3
  | severe => 4
  end.

(** [key] names a member every object inherits from [Object.prototype]. *)
Definition isInheritedKey (key : string) : bool :=
  existsb (String.eqb key) ChatClassifier.OBJECT_PROTOTYPE_KEYS.

(** A language code that is neither supported nor an inherited key. *)
Definition unsupportedLanguage (language : string) : Prop :=
  language <> "en" /\ language <> "hi" /\ isInheritedKey language = false.

End ServiceSpec.

Module ClassifierExtraSpec.

Import ChatClassifier.


(** The list starts with a screening created within the window at [t], and
    no later entry with a valid date is newer: the shape in which the query
    for recent screenings, ordered by [createdAt] descending, delivers its
    rows. *)
Definition newestFirst (now : Z) (first : Screening) (rest : list Screening) : Prop :=
  exists t,
    createdAt first = Some t /\
    isRecent now first = true /\
    forall s t', In s rest -> createdAt s = Some t' -> (t' <= t)%Z.

(** The bundle returned when the language table has no template for the
    category. *)
Definition GENERIC_BUNDLE : ResponseBundle :=
  {| message := GENERIC_MESSAGE;
     quickReplies := [ "Take screening test"; "Book counselling"; "Browse resources" ];
     showCrisisBanner := false;
     nextSteps := None;
     echoedCategory := None;
     echoedSeverity := None |}.

End ClassifierExtraSpec.

(* ================================================================== *)
(** * Properties of the screening scorer *)
(* ================================================================== *)

Module ScorerProofs.

Import ScreeningScorer ScorerSpec.
Open Scope Z_scope.

(** ** Auxiliary facts *)

Lemma fold_left_add_shift (l : list JsValue) (acc : Z) :
  fold_left (fun sum answer => sum + toNumber answer) l acc =
  acc + fold_left (fun sum answer => sum + toNumber answer) l 0.
Proof.
  revert acc; induction l as [|v l IH]; intros acc; simpl.
  - lia.
  - rewrite IH, (IH (toNumber v)). lia.
Qed.

Lemma totalScore_cons (v : JsValue) (l : list JsValue) :
  totalScore (v :: l) = toNumber v + totalScore l.
Proof.
  unfold totalScore; simpl. now rewrite fold_left_add_shift.
Qed.

Lemma totalScore_ints (zs : list Z) :
  totalScore (map JsInt zs) = sumAnswers zs.
Proof.
  induction zs as [|z zs IH].
  - reflexivity.
  - change (map JsInt (z :: zs)) with (JsInt z :: map JsInt zs).
    rewrite totalScore_cons, IH. reflexivity.
Qed.

Lemma sumAnswers_bounds (zs : list Z) :
  inScale zs -> 0 <= sumAnswers zs <= 3 * Z.of_nat (List.length zs).
Proof.
  induction 1 as [|z zs Hz _ IH]; simpl.
  - lia.
  - fold (sumAnswers zs). lia.
Qed.

Lemma forallb_valid_ints (zs : list Z) :
  inScale zs -> forallb validAnswer (map JsInt zs) = true.
Proof.
  induction 1 as [|z zs Hz _ IH]; simpl.
  - reflexivity.
  - rewrite IH, andb_true_r.
    apply andb_true_intro; split; apply Z.leb_le; lia.
Qed.

Lemma forallb_valid_inv (l : list JsValue) :
  forallb validAnswer l = true ->
  exists zs, l = map JsInt zs /\ inScale zs.
Proof.
  induction l as [|v l IH]; simpl; intros H.
  - exists []. split; [reflexivity | constructor].
  - apply andb_prop in H. destruct H as [Hv Hl].
    destruct (IH Hl) as (zs & -> & Hzs).
    destruct v as [z|]; simpl in Hv; [|discriminate].
    apply andb_prop in Hv. destruct Hv as [H0 H3].
    apply Z.leb_le in H0. apply Z.leb_le in H3.
    exists (z :: zs). split; [reflexivity|].
    constructor; [lia | exact Hzs].
Qed.

Lemma forallb_valid_false (l : list JsValue) :
  forallb validAnswer l = false <->
  exists v, In v l /\ (forall z, v = JsInt z -> z < 0 \/ 3 < z).
Proof.
  split.
  - induction l as [|v l IH]; simpl; intros H; [discriminate|].
    apply andb_false_iff in H. destruct H as [Hv | Hl].
    + exists v. split; [now left|].
      intros z ->. simpl in Hv. apply andb_false_iff in Hv.
      destruct Hv as [Hv | Hv]; apply Z.leb_gt in Hv; lia.
    + destruct (IH Hl) as (w & Hin & Hw). exists w. split; [now right | exact Hw].
  - intros (v & Hin & Hv).
    destruct (forallb validAnswer l) eqn:E; [|reflexivity].
    rewrite forallb_forall in E. specialize (E v Hin).
    destruct v as [z|]; simpl in E; [|discriminate].
    apply andb_prop in E. destruct E as [H0 H3].
    apply Z.leb_le in H0. apply Z.leb_le in H3.
    destruct (Hv z eq_refl); lia.
Qed.

Lemma phq9Band_table (s : Z) : PHQ9_table s (phq9Band s).
Proof.
  unfold PHQ9_table, phq9Band.
  repeat match goal with
         | |- context [?a <=? ?b] => destruct (Z.leb_spec a b)
         end; repeat split; intros; solve [reflexivity | lia].
Qed.

Lemma gad7Band_table (s : Z) : GAD7_table s (gad7Band s).
Proof.
  unfold GAD7_table, gad7Band.
  repeat match goal with
         | |- context [?a <=? ?b] => destruct (Z.leb_spec a b)
         end; repeat split; intros; solve [reflexivity | lia].
Qed.

Lemma scorePHQ9_valid (zs : list Z) :
  List.length zs = 9%nat -> inScale zs ->
  scorePHQ9 (JsArray (map JsInt zs)) =
  Ok {| score := sumAnswers zs;
        maxScore := 27;
        severityBand := phq9Band (sumAnswers zs);
        interpretation := getPHQ9Interpretation (phq9Band (sumAnswers zs)) |}.
Proof.
  intros Hlen Hsc. unfold scorePHQ9.
  rewrite length_map, Hlen. simpl negb. cbv iota.
  rewrite (forallb_valid_ints Hsc). simpl negb. cbv iota.
  now rewrite totalScore_ints.
Qed.

Lemma scoreGAD7_valid (zs : list Z) :
  List.length zs = 7%nat -> inScale zs ->
  scoreGAD7 (JsArray (map JsInt zs)) =
  Ok {| score := sumAnswers zs;
        maxScore := 21;
        severityBand := gad7Band (sumAnswers zs);
        interpretation := getGAD7Interpretation (gad7Band (sumAnswers zs)) |}.
Proof.
  intros Hlen Hsc. unfold scoreGAD7.
  rewrite length_map, Hlen. simpl negb. cbv iota.
  rewrite (forallb_valid_ints Hsc). simpl negb. cbv iota.
  now rewrite totalScore_ints.
Qed.

(** ** Threshold boundaries, run on the model *)

Example phq9_boundary_4_5 :
  option_map severityBand
    (match scorePHQ9 (JsArray (map JsInt [3;1;0;0;0;0;0;0;0])) with
     | Ok r => Some r | Throw _ => None end) = Some minimal /\
  option_map severityBand
    (match scorePHQ9 (JsArray (map JsInt [3;2;0;0;0;0;0;0;0])) with
     | Ok r => Some r | Throw _ => None end) = Some mild.
Proof. split; reflexivity. Qed.

Example phq9_boundary_19_20 :
  option_map severityBand
    (match scorePHQ9 (JsArray (map JsInt [3;3;3;3;3;3;1;0;0])) with
     | Ok r => Some r | Throw _ => None end) = Some moderate_severe /\
  option_map severityBand
    (match scorePHQ9 (JsArray (map JsInt [3;3;3;3;3;3;2;0;0])) with
     | Ok r => Some r | Throw _ => None end) = Some severe.
Proof. split; reflexivity. Qed.

Example gad7_boundary_14_15 :
  option_map severityBand
    (match scoreGAD7 (JsArray (map JsInt [3;3;3;3;2;0;0])) with
     | Ok r => Some r | Throw _ => None end) = Some moderate /\
  option_map severityBand
    (match scoreGAD7 (JsArray (map JsInt [3;3;3;3;3;0;0])) with
     | Ok r => Some r | Throw _ => None end) = Some severe.
Proof. split; reflexivity. Qed.

Example phq9_eight_answers :
  scorePHQ9 (JsArray (map JsInt [0;0;0;0;0;0;0;0])) =
  Throw "PHQ-9 requires exactly 9 answers".
Proof. reflexivity. Qed.

Example phq9_answer_of_four :
  scorePHQ9 (JsArray (map JsInt [0;0;0;0;4;0;0;0;0])) =
  Throw "PHQ-9 answers must be integers between 0 and 3".
Proof. reflexivity. Qed.

(** ** The scoring law *)

(** C3.  For every vector of exactly 9 integers in [0,3], [scorePHQ9]
    returns a result whose score is the sum of the answers, which lies in
    [0,27], whose [maxScore] is 27 and whose band is the one the inclusive
    thresholds 4, 9, 14, 19 select; for every vector of exactly 7 integers
    in [0,3], [scoreGAD7] returns the sum, in [0,21], [maxScore] 21 and the
    band selected by the thresholds 4, 9, 14. *)
Theorem scoring_law :
  (forall zs : list Z,
      List.length zs = 9%nat -> inScale zs ->
      exists r, scorePHQ9 (JsArray (map JsInt zs)) = Ok r /\
                score r = sumAnswers zs /\
                0 <= score r <= 27 /\
                maxScore r = 27 /\
                PHQ9_table (score r) (severityBand r)) /\
  (forall zs : list Z,
      List.length zs = 7%nat -> inScale zs ->
      exists r, scoreGAD7 (JsArray (map JsInt zs)) = Ok r /\
                score r = sumAnswers zs /\
                0 <= score r <= 21 /\
                maxScore r = 21 /\
                GAD7_table (score r) (severityBand r)).
Proof.
  split; intros zs Hlen Hsc.
  - eexists. split; [apply scorePHQ9_valid; assumption|]. simpl.
    pose proof (sumAnswers_bounds Hsc) as Hb. rewrite Hlen in Hb.
    repeat split; try lia; apply phq9Band_table.
  - eexists. split; [apply scoreGAD7_valid; assumption|]. simpl.
    pose proof (sumAnswers_bounds Hsc) as Hb. rewrite Hlen in Hb.
    repeat split; try lia; apply gad7Band_table.
Qed.

Lemma scoring_law_witness :
  (List.length [1; 2; 3; 0; 1; 2; 3; 0; 3] = 9%nat /\
   inScale [1; 2; 3; 0; 1; 2; 3; 0; 3] /\
   exists r, scorePHQ9 (JsArray (map JsInt [1; 2; 3; 0; 1; 2; 3; 0; 3])) = Ok r /\
             score r = sumAnswers [1; 2; 3; 0; 1; 2; 3; 0; 3] /\
             0 <= score r <= 27 /\
             maxScore r = 27 /\
             PHQ9_table (score r) (severityBand r)) /\
  (List.length [3; 3; 3; 3; 3; 0; 0] = 7%nat /\
   inScale [3; 3; 3; 3; 3; 0; 0] /\
   exists r, scoreGAD7 (JsArray (map JsInt [3; 3; 3; 3; 3; 0; 0])) = Ok r /\
             score r = sumAnswers [3; 3; 3; 3; 3; 0; 0] /\
             0 <= score r <= 21 /\
             maxScore r = 21 /\
             GAD7_table (score r) (severityBand r)).
Proof.
  split.
  - assert (Hs : inScale [1; 2; 3; 0; 1; 2; 3; 0; 3])
      by (repeat constructor; lia).
    split; [reflexivity|]. split; [exact Hs|].
    exact (proj1 scoring_law [1; 2; 3; 0; 1; 2; 3; 0; 3] eq_refl Hs).
  - assert (Hs : inScale [3; 3; 3; 3; 3; 0; 0])
      by (repeat constructor; lia).
    split; [reflexivity|]. split; [exact Hs|].
    exact (proj2 scoring_law [3; 3; 3; 3; 3; 0; 0] eq_refl Hs).
Defined.

(** ** Rejection of invalid input *)

(** Both scorers run the same two checks; the tactics below unfold either
    one and decide the length test. *)
Ltac unfold_scorer :=
  unfold scorePHQ9, scoreGAD7.

Ltac decide_length l n :=
  destruct (Nat.eqb_spec (List.length l) n); simpl negb; cbv iota.

Lemma valid_of_checks (n : nat) (l : list JsValue) :
  List.length l = n -> forallb validAnswer l = true ->
  validVector n (JsArray l).
Proof.
  intros Hlen Hall.
  destruct (forallb_valid_inv _ Hall) as (zs & -> & Hsc).
  exists zs. rewrite length_map in Hlen. auto.
Qed.

Lemma invalid_cases (n : nat) (arg : JsArg) :
  ~ validVector n arg -> wrongLength n arg \/ wrongElement n arg.
Proof.
  intros Hinvalid. destruct arg as [|l]; simpl; [now left|].
  destruct (Nat.eq_dec (List.length l) n) as [Hlen|Hlen]; [right | now left].
  split; [exact Hlen|].
  apply forallb_valid_false.
  destruct (forallb validAnswer l) eqn:Hall; [|reflexivity].
  exfalso. apply Hinvalid. now apply valid_of_checks.
Qed.

Lemma scorePHQ9_throws_iff (arg : JsArg) :
  (exists msg, scorePHQ9 arg = Throw msg) <-> ~ validVector 9 arg.
Proof.
  split.
  - intros (msg & Hthrow) (zs & -> & Hlen & Hsc).
    rewrite (scorePHQ9_valid Hlen Hsc) in Hthrow. discriminate Hthrow.
  - intros Hinvalid. destruct arg as [|l]; unfold_scorer.
    + eexists; reflexivity.
    + decide_length l 9%nat; [|eexists; reflexivity].
      destruct (forallb validAnswer l) eqn:Hall; simpl negb; cbv iota.
      * exfalso. apply Hinvalid. now apply valid_of_checks.
      * eexists; reflexivity.
Qed.

Lemma scoreGAD7_throws_iff (arg : JsArg) :
  (exists msg, scoreGAD7 arg = Throw msg) <-> ~ validVector 7 arg.
Proof.
  split.
  - intros (msg & Hthrow) (zs & -> & Hlen & Hsc).
    rewrite (scoreGAD7_valid Hlen Hsc) in Hthrow. discriminate Hthrow.
  - intros Hinvalid. destruct arg as [|l]; unfold_scorer.
    + eexists; reflexivity.
    + decide_length l 7%nat; [|eexists; reflexivity].
      destruct (forallb validAnswer l) eqn:Hall; simpl negb; cbv iota.
      * exfalso. apply Hinvalid. now apply valid_of_checks.
      * eexists; reflexivity.
Qed.

Lemma scorePHQ9_wrongLength (arg : JsArg) :
  wrongLength 9 arg -> scorePHQ9 arg = Throw PHQ9_LENGTH_ERROR.
Proof.
  destruct arg as [|l]; simpl; intros H; [reflexivity|].
  decide_length l 9%nat; [contradiction | reflexivity].
Qed.

Lemma scoreGAD7_wrongLength (arg : JsArg) :
  wrongLength 7 arg -> scoreGAD7 arg = Throw GAD7_LENGTH_ERROR.
Proof.
  destruct arg as [|l]; simpl; intros H; [reflexivity|].
  decide_length l 7%nat; [contradiction | reflexivity].
Qed.

Lemma scorePHQ9_wrongElement (arg : JsArg) :
  wrongElement 9 arg -> scorePHQ9 arg = Throw PHQ9_RANGE_ERROR.
Proof.
  destruct arg as [|l]; simpl; intros H; [contradiction|].
  destruct H as [Hlen Hbad]. apply forallb_valid_false in Hbad.
  now rewrite Hlen, Hbad.
Qed.

Lemma scoreGAD7_wrongElement (arg : JsArg) :
  wrongElement 7 arg -> scoreGAD7 arg = Throw GAD7_RANGE_ERROR.
Proof.
  destruct arg as [|l]; simpl; intros H; [contradiction|].
  destruct H as [Hlen Hbad]. apply forallb_valid_false in Hbad.
  now rewrite Hlen, Hbad.
Qed.

(** C4.  [scorePHQ9] (resp. [scoreGAD7]) throws, and so returns no result,
    exactly when its argument is not a sequence of exactly 9 (resp. 7)
    integers each in [0,3].  Every invalid argument falls under one of two
    cases, and the message names the case: a wrong length (or no array at
    all) gives the message on the number of answers, an element that is no
    integer of the scale gives the message on the range.  No invalid vector
    yields a score. *)
Theorem invalid_input_rejected (arg : JsArg) :
  ((exists msg, scorePHQ9 arg = Throw msg) <-> ~ validVector 9 arg) /\
  (~ validVector 9 arg -> wrongLength 9 arg \/ wrongElement 9 arg) /\
  (wrongLength 9 arg ->
   scorePHQ9 arg = Throw "PHQ-9 requires exactly 9 answers") /\
  (wrongElement 9 arg ->
   scorePHQ9 arg = Throw "PHQ-9 answers must be integers between 0 and 3") /\
  ((exists msg, scoreGAD7 arg = Throw msg) <-> ~ validVector 7 arg) /\
  (~ validVector 7 arg -> wrongLength 7 arg \/ wrongElement 7 arg) /\
  (wrongLength 7 arg ->
   scoreGAD7 arg = Throw "GAD-7 requires exactly 7 answers") /\
  (wrongElement 7 arg ->
   scoreGAD7 arg = Throw "GAD-7 answers must be integers between 0 and 3").
Proof.
  repeat split.
  - apply scorePHQ9_throws_iff.
  - apply scorePHQ9_throws_iff.
  - apply invalid_cases.
  - apply scorePHQ9_wrongLength.
  - apply scorePHQ9_wrongElement.
  - apply scoreGAD7_throws_iff.
  - apply scoreGAD7_throws_iff.
  - apply invalid_cases.
  - apply scoreGAD7_wrongLength.
  - apply scoreGAD7_wrongElement.
Qed.

End ScorerProofs.
(* ================================================================== *)
(** * Properties of the chat classifier *)
(* ================================================================== *)

Module ClassifierProofs.

Import ChatClassifier ClassifierSpec.

Unset Implicit Arguments.

(** ** Substring search *)

Lemma prefix_spec (k s : string) :
  prefix k s = true <-> exists after, s = k ++ after.
Proof.
  revert s; induction k as [|c k IH]; intros s.
  - split; [intros _; now exists s|].
    intros _. destruct s; reflexivity.
  - destruct s as [|d s]; simpl.
    + split; [discriminate | intros (after & H); discriminate H].
    + destruct (Ascii.ascii_dec c d) as [->|Hcd].
      * rewrite IH. split; intros (after & H); exists after.
        -- now rewrite H.
        -- now injection H.
      * split; [discriminate|].
        intros (after & H). injection H as H1 _. congruence.
Qed.

Lemma includes_spec (s k : string) :
  includes s k = true <-> Substring k s.
Proof.
  unfold Substring. induction s as [|d s IH]; cbn [includes].
  - rewrite orb_false_r, prefix_spec. split.
    + intros (after & H). now exists "", after.
    + intros (before & after & H). destruct before; [|discriminate H].
      now exists after.
  - rewrite orb_true_iff, prefix_spec, IH. split.
    + intros [(after & H) | (before & after & H)].
      * now exists "", after.
      * exists (String d before), after. simpl. now rewrite H.
    + intros (before & after & H). destruct before as [|b before].
      * left. now exists after.
      * right. injection H as _ H. now exists before, after.
Qed.

(** ** The head of a sorted array *)

Lemma Qlt_bool_iff (x y : Q) : Qlt_bool x y = true <-> (x < y)%Q.
Proof.
  unfold Qlt_bool. rewrite Qlt_alt.
  destruct (x ?= y)%Q; split; congruence.
Qed.

Lemma Qlt_bool_false_iff (x y : Q) : Qlt_bool x y = false <-> (y <= x)%Q.
Proof.
  rewrite <- not_true_iff_false, Qlt_bool_iff. split.
  - apply Qnot_lt_le.
  - apply Qle_not_lt.
Qed.

Section SortHead.

Variable A : Type.
Variable compareFn : A -> A -> Q.

Lemma sortInsert_In (x y : A) (l : list A) :
  In y (sortInsert compareFn x l) <-> y = x \/ In y l.
Proof.
  induction l as [|z l IH]; simpl.
  - intuition congruence.
  - destruct (Qlt_bool 0 (compareFn x z)); simpl; rewrite ?IH; intuition congruence.
Qed.

Lemma jsSort_In (y : A) (l : list A) :
  In y (jsSort compareFn l) <-> In y l.
Proof.
  induction l as [|x l IH]; simpl; [reflexivity|].
  rewrite sortInsert_In, IH. intuition congruence.
Qed.

Lemma jsSort_nil (l : list A) : jsSort compareFn l = [] -> l = [].
Proof.
  destruct l as [|x l]; [reflexivity|]. simpl.
  destruct (jsSort compareFn l) as [|z l']; simpl; [discriminate|].
  destruct (Qlt_bool 0 (compareFn x z)); discriminate.
Qed.

Lemma hd_sortInsert (x : A) (l : list A) :
  hd_error (sortInsert compareFn x l) =
  Some match hd_error l with
       | None => x
       | Some h => if Qlt_bool 0 (compareFn x h) then h else x
       end.
Proof.
  destruct l as [|h l]; simpl; [reflexivity|].
  destruct (Qlt_bool 0 (compareFn x h)); reflexivity.
Qed.

(** When the comparator orders by a numeric key, greatest first, the head
    of the sorted array is the first element of the array that carries
    the greatest key. *)
Variable key : A -> Q.

Lemma hd_jsSort_first_max (l : list A) (m : A) :
  (forall x y, In x l -> In y l ->
               Qlt_bool 0 (compareFn x y) = Qlt_bool (key x) (key y)) ->
  hd_error (jsSort compareFn l) = Some m ->
  exists before after,
    l = (before ++ m :: after)%list /\
    (forall y, In y before -> (key y < key m)%Q) /\
    (forall y, In y after -> (key y <= key m)%Q).
Proof.
  revert m; induction l as [|x l IH]; intros m Hcmp Hhd; [discriminate Hhd|].
  simpl in Hhd. rewrite hd_sortInsert in Hhd.
  destruct (hd_error (jsSort compareFn l)) as [h|] eqn:Hh.
  - destruct (IH h) as (before & after & Hl & Hb & Ha);
      [intros; apply Hcmp; now right | reflexivity |].
    assert (Hin : In h l) by (rewrite Hl; apply in_elt).
    rewrite (Hcmp x h) in Hhd by (simpl; auto).
    destruct (Qlt_bool (key x) (key h)) eqn:Hlt; injection Hhd as <-.
    + apply Qlt_bool_iff in Hlt.
      exists (x :: before), after. rewrite Hl. split; [reflexivity|].
      split; [|exact Ha].
      intros y [<-|Hy]; [exact Hlt | now apply Hb].
    + apply Qlt_bool_false_iff in Hlt.
      exists [], l. split; [reflexivity|]. split; [intros y []|].
      intros y Hy. rewrite Hl in Hy. apply in_app_or in Hy.
      apply Qle_trans with (key h); [|exact Hlt].
      destruct Hy as [Hy|[<-|Hy]].
      * apply Qlt_le_weak. now apply Hb.
      * apply Qle_refl.
      * now apply Ha.
  - injection Hhd as <-.
    assert (Hnil : l = []).
    { apply jsSort_nil. now destruct (jsSort compareFn l). }
    subst l.
    exists [], []. split; [reflexivity|]. split; intros y [].
Qed.

End SortHead.

(** ** Keyword matching and match ratios *)

Lemma byScoreDescending_key (x y : Category * Q) :
  Qlt_bool 0 (byScoreDescending x y) = Qlt_bool (snd x) (snd y).
Proof.
  unfold byScoreDescending.
  destruct (Qlt_bool (snd x) (snd y)) eqn:H.
  - apply Qlt_bool_iff. apply Qlt_bool_iff in H.
    now apply (proj1 (Qlt_minus_iff (snd x) (snd y))).
  - apply Qlt_bool_false_iff. apply Qlt_bool_false_iff in H.
    apply Qnot_lt_le. intros H0. apply (Qle_not_lt _ _ H).
    now apply (proj2 (Qlt_minus_iff (snd x) (snd y))).
Qed.

Lemma keywordsOf_nonempty (c : Category) :
  In c ENUMERATION -> (0 < List.length (keywordsOf c))%nat.
Proof.
  simpl. intros H.
  repeat (destruct H as [<-|H]; [vm_compute; lia|]). destruct H.
Qed.

Lemma ratio_as_quotient (m n : nat) :
  (0 < n)%nat ->
  (Qred (Z.of_nat m # Pos.of_nat n) ==
   inject_Z (Z.of_nat m) / inject_Z (Z.of_nat n))%Q.
Proof.
  intros Hn. rewrite Qred_correct, Qmake_Qdiv.
  replace (Z.pos (Pos.of_nat n)) with (Z.of_nat n); [reflexivity|].
  destruct n as [|n]; [lia|].
  now rewrite <- Pos.of_nat_succ, Zpos_P_of_succ_nat, Nat2Z.inj_succ.
Qed.

Section Facts.

Variable toLowerCase : string -> string.

Local Abbreviation hasCrisisKeywords := (hasCrisisKeywords toLowerCase).
Local Abbreviation matchRatio := (matchRatio toLowerCase).
Local Abbreviation categoryScores := (categoryScores toLowerCase).
Local Abbreviation bestCategory := (bestCategory toLowerCase).
Local Abbreviation classify := (classify toLowerCase).
Local Abbreviation containsKeyword := (containsKeyword toLowerCase).
Local Abbreviation mentionsCrisis := (mentionsCrisis toLowerCase).
Local Abbreviation mentionsCategory := (mentionsCategory toLowerCase).
Local Abbreviation matchCount := (matchCount toLowerCase).
Local Abbreviation ratioOf := (ratioOf toLowerCase).

Lemma matchesKeyword_iff (text keyword : string) :
  matchesKeyword toLowerCase (toLowerCase text) keyword = true <->
  containsKeyword text keyword.
Proof. apply includes_spec. Qed.

Lemma hasCrisisKeywords_iff (text : string) :
  hasCrisisKeywords (toLowerCase text) = true <-> mentionsCrisis text.
Proof.
  unfold ChatClassifier.hasCrisisKeywords, ClassifierSpec.mentionsCrisis.
  rewrite existsb_exists.
  split; intros (k & Hin & Hk); exists k; split; try exact Hin;
    now apply matchesKeyword_iff.
Qed.

Lemma hasCrisisKeywords_false (text : string) :
  ~ mentionsCrisis text -> hasCrisisKeywords (toLowerCase text) = false.
Proof.
  intros H. apply not_true_is_false. now rewrite hasCrisisKeywords_iff.
Qed.

Lemma categoryScores_enumeration (normalizedText : string) :
  categoryScores normalizedText =
  map (fun c => (c, matchRatio normalizedText (keywordsOf c))) ENUMERATION.
Proof. reflexivity. Qed.

Lemma matchRatio_ratioOf (text : string) (c : Category) :
  In c ENUMERATION ->
  (matchRatio (toLowerCase text) (keywordsOf c) == ratioOf text c)%Q.
Proof.
  intros Hc. unfold ChatClassifier.matchRatio, ClassifierSpec.ratioOf.
  apply ratio_as_quotient. now apply keywordsOf_nonempty.
Qed.

Lemma matchCount_positive (text : string) (c : Category) :
  (0 < matchCount text c)%nat <->
  exists keyword, In keyword (keywordsOf c) /\ containsKeyword text keyword.
Proof.
  unfold ClassifierSpec.matchCount.
  set (f := fun keyword => includes (toLowerCase text) (toLowerCase keyword)).
  split.
  - intros H. destruct (filter f (keywordsOf c)) as [|k l] eqn:E;
      [simpl in H; lia|].
    assert (Hk : In k (filter f (keywordsOf c))) by (rewrite E; now left).
    apply filter_In in Hk. destruct Hk as [Hin Hf].
    exists k. split; [exact Hin|]. now apply includes_spec.
  - intros (k & Hin & Hk). apply includes_spec in Hk.
    assert (Hf : In k (filter f (keywordsOf c))) by (apply filter_In; auto).
    destruct (filter f (keywordsOf c)); [destruct Hf | simpl; lia].
Qed.

Lemma ratioOf_nonneg (text : string) (c : Category) :
  (0 <= ratioOf text c)%Q.
Proof.
  unfold ClassifierSpec.ratioOf.
  destruct (List.length (keywordsOf c)) as [|n].
  - simpl. unfold Qdiv, Qinv. simpl. rewrite Qmult_0_r. apply Qle_refl.
  - apply Qle_shift_div_l.
    + change 0%Q with (inject_Z 0). rewrite <- Zlt_Qlt. lia.
    + rewrite Qmult_0_l. change 0%Q with (inject_Z 0). rewrite <- Zle_Qle. lia.
Qed.

Lemma ratioOf_positive (text : string) (c : Category) :
  In c ENUMERATION -> (0 < matchCount text c)%nat -> (0 < ratioOf text c)%Q.
Proof.
  intros Hc Hm. pose proof (keywordsOf_nonempty _ Hc) as Hn.
  unfold ClassifierSpec.ratioOf.
  apply Qlt_shift_div_l.
  - change 0%Q with (inject_Z 0). rewrite <- Zlt_Qlt. lia.
  - rewrite Qmult_0_l. change 0%Q with (inject_Z 0). rewrite <- Zlt_Qlt. lia.
Qed.

Lemma ratioOf_zero (text : string) (c : Category) :
  matchCount text c = 0%nat -> (ratioOf text c == 0)%Q.
Proof.
  intros Hm. unfold ClassifierSpec.ratioOf. rewrite Hm. simpl.
  unfold Qdiv. apply Qmult_0_l.
Qed.

Lemma mentionsCategory_iff (text : string) :
  mentionsCategory text <->
  exists c, In c ENUMERATION /\ (0 < matchCount text c)%nat.
Proof.
  unfold ClassifierSpec.mentionsCategory. split.
  - intros (c & k & Hc & Hk & Hcontains). exists c. split; [exact Hc|].
    apply matchCount_positive. now exists k.
  - intros (c & Hc & Hm). apply matchCount_positive in Hm.
    destruct Hm as (k & Hk & Hcontains). now exists c, k.
Qed.

(** ** The selected category *)

Lemma bestCategory_first_max (text : string) :
  exists c r before after,
    bestCategory (toLowerCase text) = Some (c, r) /\
    (r == ratioOf text c)%Q /\
    ENUMERATION = (before ++ c :: after)%list /\
    (forall c', In c' before -> (ratioOf text c' < ratioOf text c)%Q) /\
    (forall c', In c' after -> (ratioOf text c' <= ratioOf text c)%Q).
Proof.
  unfold ChatClassifier.bestCategory. rewrite categoryScores_enumeration.
  set (f := fun c => (c, matchRatio (toLowerCase text) (keywordsOf c))).
  destruct (hd_error (jsSort byScoreDescending (map f ENUMERATION)))
    as [[c r]|] eqn:Hhd.
  - destruct (hd_jsSort_first_max _ byScoreDescending (@snd Category Q)
                (map f ENUMERATION) (c, r)) as (b' & a' & Hmap & Hb & Ha);
      [intros; apply byScoreDescending_key | exact Hhd |].
    apply map_eq_app in Hmap. destruct Hmap as (before & rest & Henum & <- & Hrest).
    apply map_eq_cons in Hrest. destruct Hrest as (c0 & after & -> & Hc0 & <-).
    unfold f in Hc0. injection Hc0 as -> <-.
    assert (Hin : forall c', In c' ENUMERATION ->
              (snd (f c') == ratioOf text c')%Q)
      by (intros c' Hc'; now apply matchRatio_ratioOf).
    assert (Hc : In c ENUMERATION) by (rewrite Henum; apply in_elt).
    exists c, (matchRatio (toLowerCase text) (keywordsOf c)), before, after.
    split; [reflexivity|]. split; [now apply matchRatio_ratioOf|].
    split; [exact Henum|]. split.
    + intros c' Hc'.
      rewrite <- (Hin c') by (rewrite Henum; apply in_or_app; now left).
      rewrite <- (Hin c Hc). apply Hb. now apply in_map.
    + intros c' Hc'.
      rewrite <- (Hin c') by (rewrite Henum; apply in_or_app; right; now right).
      rewrite <- (Hin c Hc). apply Ha. now apply in_map.
  - exfalso.
    assert (Hnil : jsSort byScoreDescending (map f ENUMERATION) = []).
    { now destruct (jsSort byScoreDescending (map f ENUMERATION)). }
    apply jsSort_nil in Hnil. discriminate Hnil.
Qed.

Lemma best_ratio_positive (text : string) (c : Category) (before after : list Category) :
  mentionsCategory text ->
  ENUMERATION = (before ++ c :: after)%list ->
  (forall c', In c' before -> (ratioOf text c' < ratioOf text c)%Q) ->
  (forall c', In c' after -> (ratioOf text c' <= ratioOf text c)%Q) ->
  (0 < ratioOf text c)%Q.
Proof.
  intros Hm Henum Hb Ha. apply mentionsCategory_iff in Hm.
  destruct Hm as (c' & Hc' & Hpos).
  pose proof (ratioOf_positive text _ Hc' Hpos) as Hr.
  rewrite Henum in Hc'. apply in_app_or in Hc'.
  destruct Hc' as [Hc'|[->|Hc']].
  - apply Qlt_trans with (ratioOf text c'); [exact Hr | now apply Hb].
  - exact Hr.
  - apply Qlt_le_trans with (ratioOf text c'); [exact Hr | now apply Ha].
Qed.

Lemma best_ratio_zero (text : string) (c : Category) :
  ~ mentionsCategory text -> In c ENUMERATION -> (ratioOf text c == 0)%Q.
Proof.
  intros Hm Hc. apply ratioOf_zero.
  destruct (matchCount text c) eqn:E; [reflexivity|].
  exfalso. apply Hm. apply mentionsCategory_iff. exists c.
  split; [exact Hc | lia].
Qed.

(** ** The three outcomes of [classify] *)

Lemma classify_matched (now : Z) (text : string) (history : list ChatMessage)
    (screenings : list Screening) :
  ~ mentionsCrisis text -> mentionsCategory text ->
  exists c r before after,
    classify now text history screenings =
      {| category := c;
         severity := augmentSeverity now screenings (densitySeverity r);
         crisis := false;
         confidence := r |} /\
    bestCategory (toLowerCase text) = Some (c, r) /\
    (r == ratioOf text c)%Q /\
    ENUMERATION = (before ++ c :: after)%list /\
    (forall c', In c' before -> (ratioOf text c' < ratioOf text c)%Q) /\
    (forall c', In c' after -> (ratioOf text c' <= ratioOf text c)%Q).
Proof.
  intros Hcrisis Hcat. unfold ChatClassifier.classify.
  rewrite (hasCrisisKeywords_false _ Hcrisis).
  destruct (bestCategory_first_max text)
    as (c & r & before & after & Hbest & Hr & Henum & Hb & Ha).
  rewrite Hbest.
  assert (Hpos : Qeq_bool r 0 = false).
  { apply not_true_is_false. rewrite Qeq_bool_iff, Hr. intros H0.
    pose proof (best_ratio_positive _ _ _ _ Hcat Henum Hb Ha) as Hlt.
    rewrite H0 in Hlt. now apply Qlt_irrefl in Hlt. }
  rewrite Hpos. exists c, r, before, after. auto 10.
Qed.

End Facts.

(** ** Screening augmentation *)

Lemma isRecent_withinLast60Days (now : Z) (s : Screening) :
  isRecent now s = withinLast60Days now s.
Proof.
  unfold isRecent, daysDiff, withinLast60Days.
  destruct (createdAt s) as [t|]; [|reflexivity].
  unfold Qle_bool, Qdiv, Qmult, Qinv, inject_Z, MS_PER_DAY, SIXTY_DAYS_MS.
  simpl.
  destruct (Z.leb_spec ((now - t) * 1 * 1) 5184000000),
           (Z.leb_spec (now - t) 5184000000); solve [reflexivity | lia].
Qed.

Lemma filter_isRecent (now : Z) (screenings : list Screening) :
  filter (isRecent now) screenings = filter (withinLast60Days now) screenings.
Proof. apply filter_ext. intros s. apply isRecent_withinLast60Days. Qed.

Lemma filter_filter_implied (A : Type) (p q : A -> bool) (l : list A) :
  (forall x, p x = true -> q x = true) ->
  filter p (filter q l) = filter p l.
Proof.
  intros Hpq. induction l as [|x l IH]; simpl; [reflexivity|].
  destruct (q x) eqn:Hq; simpl.
  - now rewrite IH.
  - rewrite IH. destruct (p x) eqn:Hp; [|reflexivity].
    rewrite (Hpq x Hp) in Hq. discriminate Hq.
Qed.

Lemma bandIs_iff (s : Screening) (name : string) :
  bandIs s name = true <-> severityBand s = Some name.
Proof.
  unfold bandIs. destruct (severityBand s) as [band|].
  - rewrite String.eqb_eq. split; congruence.
  - split; discriminate.
Qed.

(** The numeric key the comparator [byNewestFirst] orders by. *)
Lemma byNewestFirst_key (now : Z) (screenings : list Screening) (x y : Screening) :
  In x (filter (isRecent now) screenings) ->
  In y (filter (isRecent now) screenings) ->
  Qlt_bool 0 (byNewestFirst x y) =
  Qlt_bool (inject_Z (match createdAt x with Some t => t | None => 0 end))
           (inject_Z (match createdAt y with Some t => t | None => 0 end)).
Proof.
  intros Hx Hy. apply filter_In in Hx. apply filter_In in Hy.
  destruct Hx as [_ Hx], Hy as [_ Hy].
  rewrite isRecent_withinLast60Days in Hx, Hy. unfold withinLast60Days in Hx, Hy.
  unfold byNewestFirst.
  destruct (createdAt x) as [tx|]; [|discriminate Hx].
  destruct (createdAt y) as [ty|]; [|discriminate Hy].
  apply eq_iff_eq_true. rewrite !Qlt_bool_iff.
  change 0%Q with (inject_Z 0). rewrite <- !Zlt_Qlt. lia.
Qed.

Lemma latest_mostRecent (now : Z) (screenings rest : list Screening)
    (latest : Screening) :
  jsSort byNewestFirst (filter (isRecent now) screenings) = latest :: rest ->
  mostRecent now screenings latest.
Proof.
  intros Hsort.
  destruct (hd_jsSort_first_max _ byNewestFirst
              (fun s => inject_Z (match createdAt s with Some t => t | None => 0 end))
              (filter (isRecent now) screenings) latest)
    as (before & after & Hl & Hb & Ha).
  - intros x y. apply byNewestFirst_key.
  - now rewrite Hsort.
  - assert (Hin : In latest (filter (isRecent now) screenings))
      by (rewrite Hl; apply in_elt).
    apply filter_In in Hin. destruct Hin as [Hin Hrecent].
    rewrite isRecent_withinLast60Days in Hrecent.
    split; [exact Hin|]. split; [exact Hrecent|].
    intros s' t t' Hin' Hrecent' Ht Ht'.
    assert (Hs' : In s' (filter (isRecent now) screenings)).
    { apply filter_In. now rewrite isRecent_withinLast60Days. }
    rewrite Hl in Hs'. apply in_app_or in Hs'.
    destruct Hs' as [Hs'|[<-|Hs']].
    + apply Hb in Hs'. rewrite Ht, Ht' in Hs'. rewrite <- Zlt_Qlt in Hs'. lia.
    + rewrite Ht in Ht'. injection Ht' as <-. lia.
    + apply Ha in Hs'. rewrite Ht, Ht' in Hs'. now rewrite <- Zle_Qle in Hs'.
Qed.

Lemma augmentSeverity_none_recent (now : Z) (screenings : list Screening)
    (severity : Severity) :
  (forall s, In s screenings -> withinLast60Days now s = false) ->
  augmentSeverity now screenings severity = severity.
Proof.
  intros Hnone. unfold augmentSeverity.
  assert (Hnil : filter (isRecent now) screenings = []).
  { rewrite filter_isRecent.
    destruct (filter (withinLast60Days now) screenings) as [|s l] eqn:E;
      [reflexivity|].
    assert (Hs : In s (filter (withinLast60Days now) screenings))
      by (rewrite E; now left).
    apply filter_In in Hs. destruct Hs as [Hin Hs].
    rewrite (Hnone s Hin) in Hs. discriminate Hs. }
  now rewrite Hnil.
Qed.

Lemma augmentSeverity_some_recent (now : Z) (screenings : list Screening)
    (severity : Severity) :
  (exists s, In s screenings /\ withinLast60Days now s = true) ->
  exists latest,
    mostRecent now screenings latest /\
    augmentSeverity now screenings severity =
      if bandIs latest "severe" || bandIs latest "moderate-severe"
      then SEVERITY_LEVELS.HIGH
      else if bandIs latest "moderate"
              && SEVERITY_LEVELS.eqb severity SEVERITY_LEVELS.LOW
      then SEVERITY_LEVELS.MODERATE
      else severity.
Proof.
  intros (s & Hin & Hs). unfold augmentSeverity.
  destruct (jsSort byNewestFirst (filter (isRecent now) screenings))
    as [|latest rest] eqn:Hsort.
  - apply jsSort_nil in Hsort.
    assert (Hs' : In s (filter (isRecent now) screenings)).
    { apply filter_In. now rewrite isRecent_withinLast60Days. }
    rewrite Hsort in Hs'. destruct Hs'.
  - exists latest. split; [|reflexivity].
    now apply latest_mostRecent with rest.
Qed.

Lemma augmentSeverity_escalates (now : Z) (screenings : list Screening)
    (severity : Severity) :
  (SEVERITY_LEVELS.rank severity <=
   SEVERITY_LEVELS.rank (augmentSeverity now screenings severity))%nat \/
  severity = SEVERITY_LEVELS.CRISIS.
Proof.
  unfold augmentSeverity.
  destruct (jsSort byNewestFirst (filter (isRecent now) screenings))
    as [|latest rest]; [left; lia|].
  destruct (bandIs latest "severe" || bandIs latest "moderate-severe");
    [destruct severity; simpl; auto with arith|].
  destruct (bandIs latest "moderate"); simpl; [|left; lia].
  destruct severity; simpl; auto with arith.
Qed.

Lemma augmentSeverity_not_crisis (now : Z) (screenings : list Screening)
    (severity : Severity) :
  severity <> SEVERITY_LEVELS.CRISIS ->
  augmentSeverity now screenings severity <> SEVERITY_LEVELS.CRISIS.
Proof.
  intros Hs. unfold augmentSeverity.
  destruct (jsSort byNewestFirst (filter (isRecent now) screenings))
    as [|latest rest]; [exact Hs|].
  destruct (bandIs latest "severe" || bandIs latest "moderate-severe");
    [discriminate|].
  destruct (bandIs latest "moderate"
            && SEVERITY_LEVELS.eqb severity SEVERITY_LEVELS.LOW);
    [discriminate | exact Hs].
Qed.

Lemma densitySeverity_not_crisis (confidence : Q) :
  densitySeverity confidence <> SEVERITY_LEVELS.CRISIS.
Proof.
  unfold densitySeverity.
  destruct (Qlt_bool (6 # 10) confidence); [discriminate|].
  destruct (Qlt_bool (3 # 10) confidence); discriminate.
Qed.

(** No match ratio of the tables equals 3/10 or 3/5, so the comparisons
    with the literals [0.3] and [0.6] never sit on a boundary. *)
Lemma thresholds_never_attained (c : Category) (keywords : list string) (m : nat) :
  In (c, keywords) CATEGORY_TRIGGERS ->
  ~ (Z.of_nat m # Pos.of_nat (List.length keywords) == 3 # 10)%Q /\
  ~ (Z.of_nat m # Pos.of_nat (List.length keywords) == 6 # 10)%Q.
Proof.
  intros Hin. simpl in Hin.
  repeat (destruct Hin as [Hin|Hin];
          [injection Hin as <- <-; unfold Qeq; simpl; lia|]).
  destruct Hin.
Qed.

Lemma augmentSeverity_recent_only (now : Z) (screenings : list Screening)
    (severity : Severity) :
  augmentSeverity now (filter (withinLast60Days now) screenings) severity =
  augmentSeverity now screenings severity.
Proof.
  unfold augmentSeverity.
  rewrite <- (filter_isRecent now screenings).
  now rewrite (filter_filter_implied _ (isRecent now) (isRecent now)) by auto.
Qed.

Lemma augmentSeverity_valid_dates (now : Z) (screenings : list Screening)
    (severity : Severity) :
  augmentSeverity now (filter hasValidDate screenings) severity =
  augmentSeverity now screenings severity.
Proof.
  unfold augmentSeverity.
  rewrite (filter_filter_implied _ (isRecent now) hasValidDate); [reflexivity|].
  intros s. rewrite isRecent_withinLast60Days.
  unfold withinLast60Days, hasValidDate.
  now destruct (createdAt s).
Qed.

(** ** The claims on [classify] *)

Section Claims.

Variable toLowerCase : string -> string.

Local Abbreviation classify := (classify toLowerCase).
Local Abbreviation bestCategory := (bestCategory toLowerCase).
Local Abbreviation mentionsCrisis := (mentionsCrisis toLowerCase).
Local Abbreviation mentionsCategory := (mentionsCategory toLowerCase).
Local Abbreviation ratioOf := (ratioOf toLowerCase).

(** C1.  Whenever the text contains an entry of the CRISIS keyword list
    as a case-insensitive substring, [classify] returns the crisis
    classification with confidence 1, whatever the history and the
    screenings are. *)
Theorem crisis_short_circuit (now : Z) (text : string)
    (history : list ChatMessage) (screenings : list Screening) :
  mentionsCrisis text ->
  classify now text history screenings =
    {| category := CRISIS;
       severity := SEVERITY_LEVELS.CRISIS;
       crisis := true;
       confidence := 1 |}.
Proof.
  intros H. apply (hasCrisisKeywords_iff toLowerCase) in H.
  unfold ChatClassifier.classify. now rewrite H.
Qed.

(** C6, amended.  Whenever the text contains no keyword of any category,
    crisis or not, [classify] returns the GENERAL classification with
    severity low and confidence 0, whatever the history and the
    screenings are. *)
Theorem no_match_is_general (now : Z) (text : string)
    (history : list ChatMessage) (screenings : list Screening) :
  ~ mentionsCrisis text ->
  ~ mentionsCategory text ->
  classify now text history screenings =
    {| category := GENERAL;
       severity := SEVERITY_LEVELS.LOW;
       crisis := false;
       confidence := 0 |}.
Proof.
  intros Hcrisis Hcat. unfold ChatClassifier.classify.
  rewrite (hasCrisisKeywords_false toLowerCase _ Hcrisis).
  destruct (bestCategory_first_max toLowerCase text)
    as (c & r & before & after & -> & Hr & Henum & _).
  assert (Hzero : Qeq_bool r 0 = true).
  { apply Qeq_bool_iff. rewrite Hr. apply best_ratio_zero; [exact Hcat|].
    rewrite Henum. apply in_elt. }
  now rewrite Hzero.
Qed.

(** C7.  The category selected by the scoring step carries the greatest
    match ratio, and among the categories that attain it the one declared
    first in the enumeration is selected: every category declared before
    it has a strictly smaller ratio.  It is the category [classify]
    returns, with that ratio as confidence, for every text without a
    crisis keyword in which some category keyword occurs. *)
Theorem first_declared_maximum_wins (text : string) :
  exists c before after,
    ENUMERATION = (before ++ c :: after)%list /\
    (forall c', In c' before -> (ratioOf text c' < ratioOf text c)%Q) /\
    (forall c', In c' after -> (ratioOf text c' <= ratioOf text c)%Q) /\
    (exists r, bestCategory (toLowerCase text) = Some (c, r) /\
               (r == ratioOf text c)%Q) /\
    (forall now history screenings,
        ~ mentionsCrisis text -> mentionsCategory text ->
        category (classify now text history screenings) = c /\
        (confidence (classify now text history screenings) == ratioOf text c)%Q).
Proof.
  destruct (bestCategory_first_max toLowerCase text)
    as (c & r & before & after & Hbest & Hr & Henum & Hb & Ha).
  exists c, before, after.
  split; [exact Henum|]. split; [exact Hb|]. split; [exact Ha|].
  split; [now exists r|].
  intros now history screenings Hcrisis Hcat.
  destruct (classify_matched toLowerCase now text history screenings Hcrisis Hcat)
    as (c1 & r1 & _ & _ & -> & Hbest1 & _).
  rewrite Hbest in Hbest1. injection Hbest1 as <- <-.
  split; [reflexivity | exact Hr].
Qed.

(** C9.  [classify] is a function of the text, the screenings and the
    current time: equal arguments give equal classifications, and the
    history argument has no influence on the result. *)
Theorem history_noninterference (now : Z) (text : string)
    (h1 h2 : list ChatMessage) (screenings : list Screening) :
  classify now text h1 screenings = classify now text h2 screenings.
Proof. reflexivity. Qed.

Lemma classify_cases (now : Z) (text : string)
    (history : list ChatMessage) (screenings : list Screening) :
  classify now text history screenings = CRISIS_RESULT \/
  classify now text history screenings = GENERAL_RESULT \/
  exists c r,
    In c ENUMERATION /\
    classify now text history screenings =
      {| category := c;
         severity := augmentSeverity now screenings (densitySeverity r);
         crisis := false;
         confidence := r |}.
Proof.
  unfold ChatClassifier.classify.
  destruct (hasCrisisKeywords toLowerCase (toLowerCase text)); [now left|].
  right.
  destruct (bestCategory_first_max toLowerCase text)
    as (c & r & before & after & -> & _ & Henum & _).
  destruct (Qeq_bool r 0); [now left|].
  right. exists c, r. split; [|reflexivity].
  rewrite Henum. apply in_elt.
Qed.

(** C10.  In every classification [classify] returns, the crisis flag is
    set exactly when the category is CRISIS, which is exactly when the
    severity is the crisis tier; and a crisis classification carries
    confidence 1. *)
Theorem crisis_consistency (now : Z) (text : string)
    (history : list ChatMessage) (screenings : list Screening) :
  let result := classify now text history screenings in
  (crisis result = true <-> category result = CRISIS) /\
  (category result = CRISIS <-> severity result = SEVERITY_LEVELS.CRISIS) /\
  (crisis result = true -> confidence result = 1%Q).
Proof.
  intros result. subst result.
  destruct (classify_cases now text history screenings)
    as [-> | [-> | (c & r & Hc & ->)]]; simpl.
  - repeat split; reflexivity.
  - repeat split; discriminate.
  - pose proof (augmentSeverity_not_crisis now screenings _
                  (densitySeverity_not_crisis r)) as Hsev.
    assert (Hcat : c <> CRISIS).
    { intros ->. simpl in Hc. intuition discriminate. }
    repeat split; intros H; try discriminate H; contradiction.
Qed.

(** C5.  For a text that reaches the augmentation step (no crisis
    keyword, some category keyword), only the screenings created within
    the last 60 days are considered; when there is one, a most recently
    created one is consulted: the final severity is high if its band is
    "severe" or "moderate-severe", moderate if its band is "moderate" and
    the keyword-derived severity is low, and the keyword-derived severity
    otherwise.  The final severity is never below the keyword-derived
    one. *)
Theorem screening_augmentation (now : Z) (text : string)
    (history : list ChatMessage) (screenings : list Screening) :
  ~ mentionsCrisis text ->
  mentionsCategory text ->
  let result := classify now text history screenings in
  let derived := densitySeverity (confidence result) in
  result =
    classify now text history (filter (withinLast60Days now) screenings) /\
  ((forall s, In s screenings -> withinLast60Days now s = false) ->
   severity result = derived) /\
  ((exists s, In s screenings /\ withinLast60Days now s = true) ->
   exists latest,
     mostRecent now screenings latest /\
     (severityBand latest = Some "severe" \/
      severityBand latest = Some "moderate-severe" ->
      severity result = SEVERITY_LEVELS.HIGH) /\
     (severityBand latest = Some "moderate" ->
      derived = SEVERITY_LEVELS.LOW ->
      severity result = SEVERITY_LEVELS.MODERATE) /\
     (severityBand latest <> Some "severe" ->
      severityBand latest <> Some "moderate-severe" ->
      severityBand latest <> Some "moderate" \/
      derived <> SEVERITY_LEVELS.LOW ->
      severity result = derived)) /\
  (SEVERITY_LEVELS.rank derived <= SEVERITY_LEVELS.rank (severity result))%nat.
Proof.
  intros Hcrisis Hcat result derived. subst derived result.
  destruct (classify_matched toLowerCase now text history screenings Hcrisis Hcat)
    as (c & r & _ & _ & -> & Hbest & _).
  destruct (classify_matched toLowerCase now text history
              (filter (withinLast60Days now) screenings) Hcrisis Hcat)
    as (c1 & r1 & _ & _ & -> & Hbest1 & _).
  rewrite Hbest in Hbest1. injection Hbest1 as <- <-.
  simpl. repeat split.
  - now rewrite augmentSeverity_recent_only.
  - apply augmentSeverity_none_recent.
  - intros Hsome.
    destruct (augmentSeverity_some_recent now screenings (densitySeverity r) Hsome)
      as (latest & Hlatest & ->).
    exists latest. split; [exact Hlatest|]. repeat split.
    + intros [H|H]; apply bandIs_iff in H; rewrite H;
        [reflexivity | now rewrite orb_true_r].
    + intros Hm Hlow.
      assert (H1 : bandIs latest "severe" = false)
        by (apply not_true_is_false; rewrite bandIs_iff, Hm; discriminate).
      assert (H2 : bandIs latest "moderate-severe" = false)
        by (apply not_true_is_false; rewrite bandIs_iff, Hm; discriminate).
      apply bandIs_iff in Hm. now rewrite H1, H2, Hm, Hlow.
    + intros Hs Hms Hother.
      assert (H1 : bandIs latest "severe" = false)
        by (apply not_true_is_false; now rewrite bandIs_iff).
      assert (H2 : bandIs latest "moderate-severe" = false)
        by (apply not_true_is_false; now rewrite bandIs_iff).
      rewrite H1, H2. simpl.
      destruct (bandIs latest "moderate") eqn:Hm; [|reflexivity].
      apply bandIs_iff in Hm. simpl.
      destruct Hother as [Hother|Hother]; [contradiction|].
      destruct (densitySeverity r); try reflexivity. now destruct Hother.
  - destruct (augmentSeverity_escalates now screenings (densitySeverity r))
      as [H|H]; [exact H | now destruct (densitySeverity_not_crisis r)].
Qed.

(** C8, amended.  [classify] is total also on screening lists that hold
    malformed records.  A record whose [createdAt] is missing or
    unparseable contributes nothing: the result is the one obtained
    without such records.  A record whose [severityBand] is missing is
    not skipped by the recency filter; it never changes the severity
    itself: whenever the final severity differs from the keyword-derived
    one, a most recent screening within the last 60 days is a well-formed
    record. *)
Theorem malformed_screenings_tolerated (now : Z) (text : string)
    (history : list ChatMessage) (screenings : list Screening) :
  classify now text history screenings =
    classify now text history (filter hasValidDate screenings) /\
  (~ mentionsCrisis text ->
   severity (classify now text history screenings) <>
     densitySeverity (confidence (classify now text history screenings)) ->
   exists latest,
     mostRecent now screenings latest /\ wellFormedScreening latest = true).
Proof.
  split.
  - unfold ChatClassifier.classify.
    destruct (hasCrisisKeywords toLowerCase (toLowerCase text)); [reflexivity|].
    destruct (bestCategory (toLowerCase text)) as [[c r]|]; [|reflexivity].
    destruct (Qeq_bool r 0); [reflexivity|].
    now rewrite augmentSeverity_valid_dates.
  - intros Hcrisis. unfold ChatClassifier.classify.
    rewrite (hasCrisisKeywords_false toLowerCase _ Hcrisis).
    destruct (bestCategory (toLowerCase text)) as [[c r]|];
      [|simpl; intros H; now destruct H].
    destruct (Qeq_bool r 0); [simpl; intros H; now destruct H|].
    simpl. unfold augmentSeverity.
    destruct (jsSort byNewestFirst (filter (isRecent now) screenings))
      as [|latest rest] eqn:Hsort; [intros H; now destruct H|].
    pose proof (latest_mostRecent now screenings rest latest Hsort) as Hlatest.
    intros Hchanged. exists latest. split; [exact Hlatest|].
    destruct Hlatest as (_ & Hrecent & _).
    unfold wellFormedScreening, hasValidDate.
    unfold withinLast60Days in Hrecent.
    destruct (createdAt latest); [simpl | discriminate Hrecent].
    unfold bandIs in Hchanged.
    destruct (severityBand latest); [reflexivity|].
    simpl in Hchanged. now destruct Hchanged.
Qed.

End Claims.

(** ** The claims run on concrete texts *)

Lemma mentionsCrisis_kill_myself :
  mentionsCrisis asciiToLowerCase "I want to kill myself".
Proof. apply hasCrisisKeywords_iff. vm_compute. reflexivity. Qed.

Lemma crisis_short_circuit_witness :
  mentionsCrisis asciiToLowerCase "I want to kill myself" /\
  classify asciiToLowerCase NOW "I want to kill myself" someHistory
    [screeningAgedDays 10 "minimal"] =
    {| category := CRISIS;
       severity := SEVERITY_LEVELS.CRISIS;
       crisis := true;
       confidence := 1 |}.
Proof.
  split.
  - exact mentionsCrisis_kill_myself.
  - exact (crisis_short_circuit asciiToLowerCase NOW "I want to kill myself"
             someHistory [screeningAgedDays 10 "minimal"]
             mentionsCrisis_kill_myself).
Defined.

(** Discharges [~ mentionsCrisis] and [~ mentionsCategory] on a concrete
    ASCII text by running the keyword search. *)
Ltac no_crisis_keyword :=
  let H := fresh in
  intros H; apply hasCrisisKeywords_iff in H; vm_compute in H; discriminate H.

Ltac no_category_keyword :=
  let H := fresh in
  let c := fresh in
  let Hc := fresh in
  let Hm := fresh in
  intros H; apply mentionsCategory_iff in H; destruct H as (c & Hc & Hm);
  simpl in Hc;
  repeat (destruct Hc as [Hc|Hc]; [subst c; vm_compute in Hm; lia|]);
  destruct Hc.

Ltac some_category_keyword c :=
  apply mentionsCategory_iff; exists c; split;
  [simpl; tauto | vm_compute; lia].

(** The text of the specification's crisis example holds no keyword of a
    non-crisis category, and is classified CRISIS, not GENERAL. *)
Lemma no_match_counterexample :
  ~ mentionsCategory asciiToLowerCase "I want to kill myself" /\
  classify asciiToLowerCase NOW "I want to kill myself" [] [] =
    {| category := CRISIS;
       severity := SEVERITY_LEVELS.CRISIS;
       crisis := true;
       confidence := 1 |} /\
  classify asciiToLowerCase NOW "I want to kill myself" [] [] <>
    {| category := GENERAL;
       severity := SEVERITY_LEVELS.LOW;
       crisis := false;
       confidence := 0 |}.
Proof.
  split; [no_category_keyword|].
  split; [vm_compute; reflexivity|].
  vm_compute. discriminate.
Qed.

Lemma no_match_is_general_witness :
  ~ mentionsCrisis asciiToLowerCase "" /\
  ~ mentionsCategory asciiToLowerCase "" /\
  classify asciiToLowerCase NOW "" someHistory [screeningAgedDays 10 "severe"] =
    {| category := GENERAL;
       severity := SEVERITY_LEVELS.LOW;
       crisis := false;
       confidence := 0 |}.
Proof.
  assert (H1 : ~ mentionsCrisis asciiToLowerCase "") by no_crisis_keyword.
  assert (H2 : ~ mentionsCategory asciiToLowerCase "") by no_category_keyword.
  split; [exact H1|]. split; [exact H2|].
  exact (no_match_is_general asciiToLowerCase NOW "" someHistory
           [screeningAgedDays 10 "severe"] H1 H2).
Defined.

Example classify_upper_case :
  classify asciiToLowerCase NOW "I WANT TO END IT ALL" [] [] = CRISIS_RESULT.
Proof. vm_compute. reflexivity. Qed.

Example classify_cannot_focus :
  classify asciiToLowerCase NOW "I have a test tomorrow and can't focus" [] [] =
    {| category := ACADEMIC_STRESS;
       severity := SEVERITY_LEVELS.LOW;
       crisis := false;
       confidence := 1 # 12 |}.
Proof. vm_compute. reflexivity. Qed.

(** "lonely" is a keyword of DEPRESSION (18 keywords) and of
    SOCIAL_ISOLATION (12 keywords): the shorter list wins. *)
Example classify_lonely :
  category (classify asciiToLowerCase NOW "I feel lonely" [] []) = SOCIAL_ISOLATION.
Proof. vm_compute. reflexivity. Qed.

(** "overwhelmed" and "pressure" against "overwhelmed", "can't sleep" and
    "insomnia": ANXIETY 1/17, DEPRESSION 1/18, STRESS_BURNOUT 2/12,
    SLEEP 2/11. *)
Example classify_tie_free :
  categoryScores asciiToLowerCase "overwhelmed by pressure, insomnia, can't sleep" =
    [(ANXIETY, 1 # 17); (DEPRESSION, 1 # 18); (STRESS_BURNOUT, 1 # 6);
     (SLEEP, 2 # 11); (ACADEMIC_STRESS, 0); (SOCIAL_ISOLATION, 0)]%Q.
Proof. vm_compute. reflexivity. Qed.

(** A tie at 1/12 between STRESS_BURNOUT, ACADEMIC_STRESS and
    SOCIAL_ISOLATION goes to the first declared. *)
Example classify_tie :
  categoryScores asciiToLowerCase "burnout, bad grades, and I am shy" =
    [(ANXIETY, 0); (DEPRESSION, 0); (STRESS_BURNOUT, 1 # 12);
     (SLEEP, 0); (ACADEMIC_STRESS, 1 # 12); (SOCIAL_ISOLATION, 1 # 12)]%Q /\
  category (classify asciiToLowerCase NOW "burnout, bad grades, and I am shy" [] []) =
    STRESS_BURNOUT.
Proof. split; vm_compute; reflexivity. Qed.

(** The 60-day cutoff. *)
Example screening_10_days_ago :
  classify asciiToLowerCase NOW "I feel anxious" [] [] =
    {| category := ANXIETY; severity := SEVERITY_LEVELS.LOW;
       crisis := false; confidence := 1 # 17 |} /\
  classify asciiToLowerCase NOW "I feel anxious" [] [screeningAgedDays 10 "severe"] =
    {| category := ANXIETY; severity := SEVERITY_LEVELS.HIGH;
       crisis := false; confidence := 1 # 17 |}.
Proof. split; vm_compute; reflexivity. Qed.

Example screening_90_days_ago :
  classify asciiToLowerCase NOW "I feel anxious" [] [screeningAgedDays 90 "severe"] =
    {| category := ANXIETY; severity := SEVERITY_LEVELS.LOW;
       crisis := false; confidence := 1 # 17 |}.
Proof. vm_compute. reflexivity. Qed.

Example screening_cutoff_exact :
  severity (classify asciiToLowerCase NOW "I feel anxious" []
              [ {| createdAt := Some (NOW - 60 * DAY)%Z;
                   severityBand := Some "severe" |} ]) = SEVERITY_LEVELS.HIGH /\
  severity (classify asciiToLowerCase NOW "I feel anxious" []
              [ {| createdAt := Some (NOW - 60 * DAY - 1)%Z;
                   severityBand := Some "severe" |} ]) = SEVERITY_LEVELS.LOW.
Proof. split; vm_compute; reflexivity. Qed.

Example screening_most_recent_used :
  severity (classify asciiToLowerCase NOW "I feel anxious" []
              [ screeningAgedDays 30 "severe"; screeningAgedDays 3 "mild";
                screeningAgedDays 20 "moderate-severe" ]) = SEVERITY_LEVELS.LOW /\
  severity (classify asciiToLowerCase NOW "I feel anxious" []
              [ screeningAgedDays 30 "mild"; screeningAgedDays 3 "moderate";
                screeningAgedDays 20 "minimal" ]) = SEVERITY_LEVELS.MODERATE.
Proof. split; vm_compute; reflexivity. Qed.

Lemma screening_augmentation_witness :
  ~ mentionsCrisis asciiToLowerCase "I feel anxious" /\
  mentionsCategory asciiToLowerCase "I feel anxious" /\
  classify asciiToLowerCase NOW "I feel anxious" []
    [screeningAgedDays 90 "severe"; screeningAgedDays 10 "severe"] =
  classify asciiToLowerCase NOW "I feel anxious" []
    (filter (withinLast60Days NOW)
       [screeningAgedDays 90 "severe"; screeningAgedDays 10 "severe"]) /\
  (SEVERITY_LEVELS.rank
     (densitySeverity
        (confidence
           (classify asciiToLowerCase NOW "I feel anxious" []
              [screeningAgedDays 90 "severe"; screeningAgedDays 10 "severe"]))) <=
   SEVERITY_LEVELS.rank
     (severity
        (classify asciiToLowerCase NOW "I feel anxious" []
           [screeningAgedDays 90 "severe"; screeningAgedDays 10 "severe"])))%nat.
Proof.
  assert (H1 : ~ mentionsCrisis asciiToLowerCase "I feel anxious")
    by no_crisis_keyword.
  assert (H2 : mentionsCategory asciiToLowerCase "I feel anxious")
    by some_category_keyword ANXIETY.
  split; [exact H1|]. split; [exact H2|].
  pose proof (screening_augmentation asciiToLowerCase NOW "I feel anxious" []
                [screeningAgedDays 90 "severe"; screeningAgedDays 10 "severe"]
                H1 H2) as H.
  cbv zeta in H. destruct H as (Hfilter & _ & _ & Hrank).
  split; [exact Hfilter | exact Hrank].
Defined.

(** A record without [severityBand] that is the most recent one hides an
    older well-formed record: with it the severity stays low, without it
    the severe screening raises the severity to high. *)
Lemma malformed_record_counterexample :
  wellFormedScreening bandlessScreening = false /\
  filter wellFormedScreening [bandlessScreening; screeningAgedDays 10 "severe"] =
    [screeningAgedDays 10 "severe"] /\
  severity (classify asciiToLowerCase NOW "I feel anxious" []
              [bandlessScreening; screeningAgedDays 10 "severe"]) =
    SEVERITY_LEVELS.LOW /\
  severity (classify asciiToLowerCase NOW "I feel anxious" []
              (filter wellFormedScreening
                 [bandlessScreening; screeningAgedDays 10 "severe"])) =
    SEVERITY_LEVELS.HIGH /\
  classify asciiToLowerCase NOW "I feel anxious" []
    [bandlessScreening; screeningAgedDays 10 "severe"] <>
  classify asciiToLowerCase NOW "I feel anxious" []
    (filter wellFormedScreening
       [bandlessScreening; screeningAgedDays 10 "severe"]).
Proof.
  repeat split; try (vm_compute; reflexivity).
  vm_compute. discriminate.
Qed.

Example dateless_record_ignored :
  classify asciiToLowerCase NOW "I feel anxious" []
    [datelessScreening; screeningAgedDays 10 "moderate"] =
  classify asciiToLowerCase NOW "I feel anxious" []
    [screeningAgedDays 10 "moderate"].
Proof. vm_compute. reflexivity. Qed.

(** ** buildResponse *)

Lemma templatesFor_cases (language : string) :
  templatesFor language = TEMPLATES_EN \/
  templatesFor language = TEMPLATES_HI \/
  templatesFor language = (fun _ => None).
Proof.
  unfold templatesFor.
  destruct (String.eqb language "en"); [now left|].
  destruct (String.eqb language "hi"); [now right; left|].
  destruct (existsb (String.eqb language) OBJECT_PROTOTYPE_KEYS); auto.
Qed.

Lemma joined_nonempty (a b : string) : a ++ " " ++ b <> "".
Proof. destruct a; discriminate. Qed.

(** Every bundle [buildResponse] returns has a message and quick replies. *)
Lemma buildResponse_usable (classification : Classification)
    (language : string) (bundle : ResponseBundle) :
  buildResponse classification language = Ok bundle -> usable bundle.
Proof.
  unfold buildResponse, usable.
  destruct (crisis classification).
  - destruct (templatesFor language CRISIS) as [template|]; [|discriminate].
    intros H. injection H as <-. simpl.
    split; [apply joined_nonempty | discriminate].
  - destruct (templatesFor language (category classification)) as [template|].
    + destruct (get_strategies template) as [strategies|]; [|discriminate].
      intros H. injection H as <-. simpl.
      split; [apply joined_nonempty | discriminate].
    + intros H. injection H as <-. simpl. split; discriminate.
Qed.

(** [buildResponse] throws in two situations only: a crisis classification
    in a language whose table has no CRISIS entry, and a classification of
    category CRISIS whose crisis flag is not set. *)
Lemma buildResponse_throws_iff (classification : Classification)
    (language : string) :
  (exists msg, buildResponse classification language = Throw msg) <->
  (crisis classification = true /\ templatesFor language CRISIS = None) \/
  (crisis classification = false /\ category classification = CRISIS /\
   templatesFor language CRISIS <> None).
Proof.
  unfold buildResponse.
  destruct classification as [cat sev cr conf]; simpl.
  destruct (templatesFor_cases language) as [-> | [-> | ->]];
    destruct cr, cat; simpl;
    (split;
     [ intros (msg & H); try discriminate H;
       solve [ left; split; reflexivity
             | right; repeat split; discriminate ]
     | intros [(H1 & H2) | (H1 & H2 & H3)];
       try discriminate; try (now destruct H3);
       eexists; reflexivity ]).
Qed.

(** With the English table every classification that [classify] can return
    gets a bundle. *)
Lemma buildResponse_english (toLowerCase : string -> string) (now : Z)
    (text : string) (history : list ChatMessage) (screenings : list Screening) :
  exists bundle,
    buildResponse (classify toLowerCase now text history screenings) "en" =
      Ok bundle /\
    usable bundle.
Proof.
  destruct (buildResponse (classify toLowerCase now text history screenings) "en")
    as [bundle|msg] eqn:E.
  - exists bundle. split; [reflexivity|]. now apply buildResponse_usable in E.
  - exfalso.
    assert (Hthrow : exists m,
               buildResponse (classify toLowerCase now text history screenings) "en"
               = Throw m) by (now exists msg).
    apply buildResponse_throws_iff in Hthrow.
    destruct Hthrow as [(_ & H) | (Hflag & Hcat & _)]; [discriminate H|].
    destruct (classify_cases toLowerCase now text history screenings)
      as [H | [H | (c & r & Hc & H)]];
      rewrite H in Hflag, Hcat; simpl in Hflag, Hcat.
    + discriminate Hflag.
    + discriminate Hcat.
    + subst c. simpl in Hc. intuition discriminate.
Qed.

(** C2, at the failing input.  A crisis classification, as [classify]
    returns it for a text with a crisis keyword, makes [buildResponse]
    throw when the language is "hi": the Hindi table has no CRISIS entry
    and the crisis branch reads the properties of the missing template. *)
Theorem buildResponse_crisis_hindi_throws :
  classify asciiToLowerCase NOW "I want to kill myself" [] [] =
    {| category := CRISIS;
       severity := SEVERITY_LEVELS.CRISIS;
       crisis := true;
       confidence := 1 |} /\
  buildResponse
    {| category := CRISIS;
       severity := SEVERITY_LEVELS.CRISIS;
       crisis := true;
       confidence := 1 |} "hi" =
    Throw "TypeError: Cannot read properties of undefined".
Proof. split; vm_compute; reflexivity. Qed.

End ClassifierProofs.
(* ================================================================== *)
(** * Further properties of the screening scorer *)
(* ================================================================== *)

Module ScorerFacts.

Import ScreeningScorer ScorerSpec ScorerProofs ServiceSpec.
Open Scope Z_scope.

Unset Implicit Arguments.

(** ** The order of the answers *)

Lemma totalScore_permutation (l l' : list JsValue) :
  Permutation l l' -> totalScore l = totalScore l'.
Proof.
  induction 1 as [|v l l' _ IH|v w l|l l' l'' _ IH1 _ IH2].
  - reflexivity.
  - now rewrite !totalScore_cons, IH.
  - rewrite !totalScore_cons. lia.
  - now rewrite IH1.
Qed.

Lemma forallb_permutation (l l' : list JsValue) :
  Permutation l l' -> forallb validAnswer l = forallb validAnswer l'.
Proof.
  intros Hp. apply eq_iff_eq_true. rewrite !forallb_forall.
  split; intros H v Hv; apply H.
  - now apply (Permutation_in v (Permutation_sym Hp)).
  - now apply (Permutation_in v Hp).
Qed.

(** X1.  The result of a scorer does not depend on the order of the
    answers: two arrays that are permutations of each other are both
    rejected with the same message or both scored to the same result. *)
Theorem score_ignores_order (l l' : list JsValue) :
  Permutation l l' ->
  scorePHQ9 (JsArray l) = scorePHQ9 (JsArray l') /\
  scoreGAD7 (JsArray l) = scoreGAD7 (JsArray l').
Proof.
  intros Hp. unfold scorePHQ9, scoreGAD7.
  rewrite (Permutation_length Hp), (forallb_permutation _ _ Hp),
    (totalScore_permutation _ _ Hp).
  split; reflexivity.
Qed.

Lemma score_ignores_order_witness :
  Permutation [JsInt 3; JsInt 0; JsInt 1; JsInt 2; JsInt 0; JsInt 0; JsInt 1]
              [JsInt 0; JsInt 3; JsInt 1; JsInt 2; JsInt 0; JsInt 0; JsInt 1] /\
  scoreGAD7 (JsArray [JsInt 3; JsInt 0; JsInt 1; JsInt 2; JsInt 0; JsInt 0; JsInt 1]) =
  scoreGAD7 (JsArray [JsInt 0; JsInt 3; JsInt 1; JsInt 2; JsInt 0; JsInt 0; JsInt 1]).
Proof.
  assert (Hp : Permutation
                 [JsInt 3; JsInt 0; JsInt 1; JsInt 2; JsInt 0; JsInt 0; JsInt 1]
                 [JsInt 0; JsInt 3; JsInt 1; JsInt 2; JsInt 0; JsInt 0; JsInt 1])
    by apply perm_swap.
  split; [exact Hp|].
  exact (proj2 (score_ignores_order _ _ Hp)).
Defined.

(** ** Monotonicity *)

Lemma sumAnswers_monotone (zs zs' : list Z) :
  Forall2 Z.le zs zs' -> sumAnswers zs <= sumAnswers zs'.
Proof.
  induction 1 as [|z z' zs zs' Hz _ IH]; simpl; [lia|].
  fold (sumAnswers zs) (sumAnswers zs'). lia.
Qed.

Lemma phq9Band_monotone (s s' : Z) :
  s <= s' -> (bandRank (phq9Band s) <= bandRank (phq9Band s'))%nat.
Proof.
  intros H. unfold phq9Band.
  repeat match goal with
         | |- context [?a <=? ?b] => destruct (Z.leb_spec a b)
         end; simpl; lia.
Qed.

Lemma gad7Band_monotone (s s' : Z) :
  s <= s' -> (bandRank (gad7Band s) <= bandRank (gad7Band s'))%nat.
Proof.
  intros H. unfold gad7Band.
  repeat match goal with
         | |- context [?a <=? ?b] => destruct (Z.leb_spec a b)
         end; simpl; lia.
Qed.

(** X2.  Raising answers never lowers the outcome: when every answer of
    one valid vector is at most the corresponding answer of another, the
    second vector gets a score and a severity band that are at least those
    of the first, for PHQ-9 and for GAD-7. *)
Theorem higher_answers_never_milder :
  (forall zs zs' : list Z,
      List.length zs = 9%nat -> inScale zs -> inScale zs' ->
      Forall2 Z.le zs zs' ->
      exists r r',
        scorePHQ9 (JsArray (map JsInt zs)) = Ok r /\
        scorePHQ9 (JsArray (map JsInt zs')) = Ok r' /\
        score r <= score r' /\
        (bandRank (severityBand r) <= bandRank (severityBand r'))%nat) /\
  (forall zs zs' : list Z,
      List.length zs = 7%nat -> inScale zs -> inScale zs' ->
      Forall2 Z.le zs zs' ->
      exists r r',
        scoreGAD7 (JsArray (map JsInt zs)) = Ok r /\
        scoreGAD7 (JsArray (map JsInt zs')) = Ok r' /\
        score r <= score r' /\
        (bandRank (severityBand r) <= bandRank (severityBand r'))%nat).
Proof.
  split; intros zs zs' Hlen Hs Hs' Hle;
    pose proof (sumAnswers_monotone _ _ Hle) as Hsum;
    pose proof (Forall2_length Hle) as Hlen'; rewrite Hlen in Hlen';
    symmetry in Hlen'.
  - rewrite (scorePHQ9_valid Hlen Hs), (scorePHQ9_valid Hlen' Hs').
    do 2 eexists. split; [reflexivity|]. split; [reflexivity|]. simpl.
    split; [exact Hsum | now apply phq9Band_monotone].
  - rewrite (scoreGAD7_valid Hlen Hs), (scoreGAD7_valid Hlen' Hs').
    do 2 eexists. split; [reflexivity|]. split; [reflexivity|]. simpl.
    split; [exact Hsum | now apply gad7Band_monotone].
Qed.

Lemma higher_answers_never_milder_witness :
  List.length [1; 1; 1; 1; 0; 0; 0; 0; 0] = 9%nat /\
  inScale [1; 1; 1; 1; 0; 0; 0; 0; 0] /\
  inScale [1; 1; 1; 2; 0; 0; 0; 0; 0] /\
  Forall2 Z.le [1; 1; 1; 1; 0; 0; 0; 0; 0] [1; 1; 1; 2; 0; 0; 0; 0; 0] /\
  exists r r',
    scorePHQ9 (JsArray (map JsInt [1; 1; 1; 1; 0; 0; 0; 0; 0])) = Ok r /\
    scorePHQ9 (JsArray (map JsInt [1; 1; 1; 2; 0; 0; 0; 0; 0])) = Ok r' /\
    score r <= score r' /\
    (bandRank (severityBand r) <= bandRank (severityBand r'))%nat.
Proof.
  assert (H1 : inScale [1; 1; 1; 1; 0; 0; 0; 0; 0]) by (repeat constructor; lia).
  assert (H2 : inScale [1; 1; 1; 2; 0; 0; 0; 0; 0]) by (repeat constructor; lia).
  assert (H3 : Forall2 Z.le [1; 1; 1; 1; 0; 0; 0; 0; 0] [1; 1; 1; 2; 0; 0; 0; 0; 0])
    by (repeat constructor; lia).
  split; [reflexivity|]. split; [exact H1|]. split; [exact H2|]. split; [exact H3|].
  exact (proj1 higher_answers_never_milder
           [1; 1; 1; 1; 0; 0; 0; 0; 0] [1; 1; 1; 2; 0; 0; 0; 0; 0]
           eq_refl H1 H2 H3).
Defined.

(** ** The bands GAD-7 can return *)

(** X3.  [scoreGAD7] never returns the band "moderate-severe"; the band it
    returns always has an entry of its own in the GAD-7 interpretation
    and recommendation tables, so their fallback to "minimal" is never
    taken for a scored GAD-7 result. *)
Theorem gad7_band_has_own_entries (arg : JsArg) (r : ScreeningResult) :
  scoreGAD7 arg = Ok r ->
  severityBand r <> moderate_severe /\
  ScreeningRecommendations.RECOMMENDATIONS_GAD7 (severityBand r) <> None.
Proof.
  unfold scoreGAD7. destruct arg as [|l]; [discriminate|].
  destruct (negb (Nat.eqb (List.length l) 7)); [discriminate|].
  destruct (negb (forallb validAnswer l)); [discriminate|].
  intros H. injection H as <-. simpl. unfold gad7Band.
  repeat match goal with
         | |- context [?a <=? ?b] => destruct (Z.leb_spec a b)
         end; split; discriminate.
Qed.

Lemma gad7_band_has_own_entries_witness :
  exists r,
    scoreGAD7 (JsArray (map JsInt [3; 3; 3; 3; 3; 2; 0])) = Ok r /\
    severityBand r <> moderate_severe /\
    ScreeningRecommendations.RECOMMENDATIONS_GAD7 (severityBand r) <> None.
Proof.
  eexists. split; [reflexivity|].
  exact (gad7_band_has_own_entries
           (JsArray (map JsInt [3; 3; 3; 3; 3; 2; 0])) _ eq_refl).
Defined.

End ScorerFacts.

(* ================================================================== *)
(** * Properties of the recommendations and of the screening routes *)
(* ================================================================== *)

Module RouteFacts.

Import ScreeningScorer ScorerSpec ScorerProofs ServiceSpec.
Import JsObject ScreeningRecommendations ScreeningRoutes.

Unset Implicit Arguments.

(** ** getRecommendations *)

(** Decides the tests a property read makes on a language code. *)
Ltac decide_language language :=
  unfold getOr, get; cbn [ownProperty];
  repeat match goal with
         | |- context [String.eqb language ?k] =>
           destruct (String.eqb language k) eqn:?
         end;
  try match goal with
      | |- context [existsb (String.eqb language) ?ks] =>
        destruct (existsb (String.eqb language) ks) eqn:?
      end;
  cbn.

Lemma getRecommendations_returns (type : ScreeningType) (band : SeverityBand)
    (language : string) :
  exists m, getRecommendations type band language = Ok m.
Proof.
  unfold getRecommendations.
  destruct type, band; cbn [typeRecommendationsOf severityRecommendationsOf
                            RECOMMENDATIONS_PHQ9 RECOMMENDATIONS_GAD7];
    decide_language language; eexists; reflexivity.
Qed.




(** ** The submission handlers *)

Lemma scorePHQ9_messages (arg : JsArg) (message : string) :
  scorePHQ9 arg = Throw message ->
  message = PHQ9_LENGTH_ERROR \/ message = PHQ9_RANGE_ERROR.
Proof.
  unfold scorePHQ9. destruct arg as [|l]; [intros [= <-]; now left|].
  destruct (negb (Nat.eqb (List.length l) 9)); [intros [= <-]; now left|].
  destruct (negb (forallb validAnswer l)); [intros [= <-]; now right|].
  discriminate.
Qed.

Lemma scoreGAD7_messages (arg : JsArg) (message : string) :
  scoreGAD7 arg = Throw message ->
  message = GAD7_LENGTH_ERROR \/ message = GAD7_RANGE_ERROR.
Proof.
  unfold scoreGAD7. destruct arg as [|l]; [intros [= <-]; now left|].
  destruct (negb (Nat.eqb (List.length l) 7)); [intros [= <-]; now left|].
  destruct (negb (forallb validAnswer l)); [intros [= <-]; now right|].
  discriminate.
Qed.

Lemma scorer_messages_recognised (arg : JsArg) (message : string) :
  scorePHQ9 arg = Throw message \/ scoreGAD7 arg = Throw message ->
  isInvalidScreeningData message = true.
Proof.
  intros [H|H];
    [apply scorePHQ9_messages in H | apply scoreGAD7_messages in H];
    destruct H as [-> | ->]; vm_compute; reflexivity.
Qed.

(** The outcome of a submission, by the outcome of the scorer. *)
Lemma postScreening_outcome (type : ScreeningType)
    (scorer : JsArg -> result ScreeningResult) (answers : JsArg)
    (language : string) :
  (forall message, scorer answers = Throw message ->
                   isInvalidScreeningData message = true) ->
  match scorer answers with
  | Ok r =>
    exists recommendations,
      getRecommendations type (severityBand r) language = Ok recommendations /\
      postScreening type scorer answers language =
        Json ({| storedType := type;
                 storedAnswers := answers;
                 storedScore := score r;
                 storedSeverityBand := severityBand r |},
              {| resultScore := score r;
                 resultMaxScore := maxScore r;
                 resultSeverityBand := severityBand r;
                 resultInterpretation :=
                   interpretationFor (interpretation r) language;
                 resultRecommendations := recommendations |})
  | Throw message =>
    postScreening type scorer answers language = BadRequest message
  end.
Proof.
  intros Hmsg. unfold postScreening.
  destruct (scorer answers) as [r|message].
  - destruct (getRecommendations_returns type (severityBand r) language)
      as (recommendations & Hrec).
    exists recommendations. split; [exact Hrec|]. now rewrite Hrec.
  - now rewrite (Hmsg message eq_refl).
Qed.

Lemma postPHQ9_outcome (answers : JsArg) (language : string) :
  match scorePHQ9 answers with
  | Ok r =>
    exists recommendations,
      getRecommendations PHQ9 (severityBand r) language = Ok recommendations /\
      postPHQ9 answers language =
        Json ({| storedType := PHQ9;
                 storedAnswers := answers;
                 storedScore := score r;
                 storedSeverityBand := severityBand r |},
              {| resultScore := score r;
                 resultMaxScore := maxScore r;
                 resultSeverityBand := severityBand r;
                 resultInterpretation :=
                   interpretationFor (interpretation r) language;
                 resultRecommendations := recommendations |})
  | Throw message => postPHQ9 answers language = BadRequest message
  end.
Proof.
  apply postScreening_outcome. intros message H.
  apply (scorer_messages_recognised answers). now left.
Qed.

Lemma postGAD7_outcome (answers : JsArg) (language : string) :
  match scoreGAD7 answers with
  | Ok r =>
    exists recommendations,
      getRecommendations GAD7 (severityBand r) language = Ok recommendations /\
      postGAD7 answers language =
        Json ({| storedType := GAD7;
                 storedAnswers := answers;
                 storedScore := score r;
                 storedSeverityBand := severityBand r |},
              {| resultScore := score r;
                 resultMaxScore := maxScore r;
                 resultSeverityBand := severityBand r;
                 resultInterpretation :=
                   interpretationFor (interpretation r) language;
                 resultRecommendations := recommendations |})
  | Throw message => postGAD7 answers language = BadRequest message
  end.
Proof.
  apply postScreening_outcome. intros message H.
  apply (scorer_messages_recognised answers). now right.
Qed.


(** ** Reading a stored screening back *)

Lemma getScreening_after_post (type : ScreeningType)
    (scorer : JsArg -> result ScreeningResult) (answers : JsArg)
    (r : ScreeningResult) (language : string) :
  (match type with PHQ9 => scorePHQ9 | _ => scoreGAD7 end) = scorer ->
  scorer answers = Ok r ->
  exists recommendations,
    getRecommendations type (severityBand r) language = Ok recommendations /\
    getScreening {| storedType := type;
                    storedAnswers := answers;
                    storedScore := score r;
                    storedSeverityBand := severityBand r |} language =
      Json {| resultScore := score r;
              resultMaxScore := maxScore r;
              resultSeverityBand := severityBand r;
              resultInterpretation :=
                interpretationFor (interpretation r) language;
              resultRecommendations := recommendations |}.
Proof.
  intros Hscorer Hr.
  destruct (getRecommendations_returns type (severityBand r) language)
    as (recommendations & Hrec).
  exists recommendations. split; [exact Hrec|].
  unfold getScreening. cbn [storedType storedAnswers storedScore storedSeverityBand].
  now rewrite Hscorer, Hr, Hrec.
Qed.

(** X7.  Reading back a screening that a submission stored reproduces the
    submission's results: in the language of the submission the [results]
    object is the same, and in any other language the request succeeds
    with the same score, maximum score and band. *)
Theorem stored_screening_reads_back (answers : JsArg) (language : string)
    (row : StoredScreening) (results : Results) :
  postPHQ9 answers language = Json (row, results) \/
  postGAD7 answers language = Json (row, results) ->
  getScreening row language = Json results /\
  forall language',
    exists results',
      getScreening row language' = Json results' /\
      resultScore results' = resultScore results /\
      resultMaxScore results' = resultMaxScore results /\
      resultSeverityBand results' = resultSeverityBand results.
Proof.
  intros [H|H].
  - pose proof (postPHQ9_outcome answers language) as Hpost.
    destruct (scorePHQ9 answers) as [r|message] eqn:Hr;
      [|rewrite Hpost in H; discriminate H].
    destruct Hpost as (recommendations & Hrec & Hpost).
    rewrite Hpost in H. injection H as <- <-. split.
    + destruct (getScreening_after_post PHQ9 scorePHQ9 answers r language
                  eq_refl Hr) as (rec' & Hrec' & Hget).
      rewrite Hrec in Hrec'. injection Hrec' as <-. exact Hget.
    + intros language'.
      destruct (getScreening_after_post PHQ9 scorePHQ9 answers r language'
                  eq_refl Hr) as (rec' & _ & Hget).
      eexists. split; [exact Hget|]. repeat split.
  - pose proof (postGAD7_outcome answers language) as Hpost.
    destruct (scoreGAD7 answers) as [r|message] eqn:Hr;
      [|rewrite Hpost in H; discriminate H].
    destruct Hpost as (recommendations & Hrec & Hpost).
    rewrite Hpost in H. injection H as <- <-. split.
    + destruct (getScreening_after_post GAD7 scoreGAD7 answers r language
                  eq_refl Hr) as (rec' & Hrec' & Hget).
      rewrite Hrec in Hrec'. injection Hrec' as <-. exact Hget.
    + intros language'.
      destruct (getScreening_after_post GAD7 scoreGAD7 answers r language'
                  eq_refl Hr) as (rec' & _ & Hget).
      eexists. split; [exact Hget|]. repeat split.
Qed.

Lemma stored_screening_reads_back_witness :
  exists row results,
    postPHQ9 (JsArray (map JsInt [1; 2; 3; 0; 1; 2; 3; 0; 3])) "hi" =
      Json (row, results) /\
    getScreening row "hi" = Json results /\
    resultScore results = 15%Z /\
    resultSeverityBand results = moderate_severe.
Proof.
  eexists. eexists.
  assert (H : postPHQ9 (JsArray (map JsInt [1; 2; 3; 0; 1; 2; 3; 0; 3]%Z)) "hi" =
              Json (_, _)) by (vm_compute; reflexivity).
  split; [exact H|].
  split; [exact (proj1 (stored_screening_reads_back _ _ _ _ (or_introl H)))|].
  split; reflexivity.
Defined.

(** ** The question lists *)


End RouteFacts.

(* ================================================================== *)
(** * Further properties of the chat classifier *)
(* ================================================================== *)

Module ClassifierFacts.

Import ChatClassifier ClassifierSpec ClassifierProofs.
Import ServiceSpec ClassifierExtraSpec RecentScreenings.

Unset Implicit Arguments.

(** ** What the screenings can change *)

(** X9.  The screenings and the current time influence the severity only:
    the category, the crisis flag and the confidence of a classification
    are the same for any two screening lists and instants. *)
Theorem screenings_only_affect_severity (toLowerCase : string -> string)
    (now1 now2 : Z) (text : string) (history : list ChatMessage)
    (screenings1 screenings2 : list Screening) :
  category (classify toLowerCase now1 text history screenings1) =
    category (classify toLowerCase now2 text history screenings2) /\
  crisis (classify toLowerCase now1 text history screenings1) =
    crisis (classify toLowerCase now2 text history screenings2) /\
  confidence (classify toLowerCase now1 text history screenings1) =
    confidence (classify toLowerCase now2 text history screenings2).
Proof.
  unfold classify.
  destruct (hasCrisisKeywords toLowerCase (toLowerCase text));
    [repeat split|].
  destruct (bestCategory toLowerCase (toLowerCase text)) as [[c r]|];
    [|repeat split].
  destruct (Qeq_bool r 0); repeat split.
Qed.

(** ** The range of the confidence *)

Lemma ratioOf_at_most_one (toLowerCase : string -> string) (text : string)
    (c : Category) :
  (ratioOf toLowerCase text c <= 1)%Q.
Proof.
  unfold ratioOf, matchCount.
  set (f := fun keyword => includes (toLowerCase text) (toLowerCase keyword)).
  pose proof (filter_length_le f (keywordsOf c)) as Hle.
  destruct (List.length (keywordsOf c)) as [|n] eqn:Hn.
  - assert (H0 : List.length (filter f (keywordsOf c)) = 0%nat) by lia.
    rewrite H0. simpl. unfold Qdiv. rewrite Qmult_0_l. discriminate.
  - apply Qle_shift_div_r.
    + change 0%Q with (inject_Z 0). rewrite <- Zlt_Qlt. lia.
    + rewrite Qmult_1_l. rewrite <- Zle_Qle. lia.
Qed.

(** X10.  The confidence of every classification lies between 0 and 1. *)
Theorem confidence_in_unit_interval (toLowerCase : string -> string)
    (now : Z) (text : string) (history : list ChatMessage)
    (screenings : list Screening) :
  (0 <= confidence (classify toLowerCase now text history screenings))%Q /\
  (confidence (classify toLowerCase now text history screenings) <= 1)%Q.
Proof.
  unfold classify.
  destruct (hasCrisisKeywords toLowerCase (toLowerCase text));
    [split; discriminate|].
  destruct (bestCategory_first_max toLowerCase text)
    as (c & r & _ & _ & -> & Hr & _).
  destruct (Qeq_bool r 0); [split; discriminate|].
  simpl. rewrite Hr. split.
  - apply ratioOf_nonneg.
  - apply ratioOf_at_most_one.
Qed.

(** ** Crisis keywords inside longer messages *)





(** ** Screenings as the query delivers them *)

Lemma sortInsert_newest (now : Z) (first : Screening) (sorted : list Screening)
    (t : Z) :
  createdAt first = Some t ->
  (forall s, In s sorted ->
             exists t', createdAt s = Some t' /\ (t' <= t)%Z) ->
  sortInsert byNewestFirst first sorted = first :: sorted.
Proof.
  intros Ht Hsorted. destruct sorted as [|h rest]; [reflexivity|].
  cbn [sortInsert].
  destruct (Hsorted h (or_introl eq_refl)) as (th & Hth & Hle).
  assert (Hcmp : Qlt_bool 0 (byNewestFirst first h) = false).
  { apply Qlt_bool_false_iff. unfold byNewestFirst. rewrite Ht, Hth.
    change 0%Q with (inject_Z 0). rewrite <- Zle_Qle. lia. }
  now rewrite Hcmp.
Qed.

Lemma augmentSeverity_newest_first (now : Z) (first : Screening)
    (rest : list Screening) (severity : Severity) :
  newestFirst now first rest ->
  augmentSeverity now (first :: rest) severity =
  augmentSeverity now [first] severity.
Proof.
  intros (t & Ht & Hrecent & Hrest). unfold augmentSeverity.
  cbn [filter]. rewrite Hrecent. cbn [jsSort].
  rewrite (sortInsert_newest now first _ t Ht); [reflexivity|].
  intros s Hs. apply jsSort_In in Hs. apply filter_In in Hs.
  destruct Hs as [Hin Hs]. rewrite isRecent_withinLast60Days in Hs.
  unfold withinLast60Days in Hs.
  destruct (createdAt s) as [t'|] eqn:Ht'; [|discriminate Hs].
  exists t'. split; [reflexivity|]. now apply (Hrest s).
Qed.

(** X12.  When the screenings arrive newest first, as the query for recent
    screenings orders them, and the first one lies within the 60 days,
    only that first screening matters: the classification is the one
    obtained with the first screening alone. *)
Theorem first_of_newest_first_decides (toLowerCase : string -> string)
    (now : Z) (text : string) (history : list ChatMessage)
    (first : Screening) (rest : list Screening) :
  newestFirst now first rest ->
  classify toLowerCase now text history (first :: rest) =
  classify toLowerCase now text history [first].
Proof.
  intros Hnewest. unfold classify.
  destruct (hasCrisisKeywords toLowerCase (toLowerCase text)); [reflexivity|].
  destruct (bestCategory toLowerCase (toLowerCase text)) as [[c r]|];
    [|reflexivity].
  destruct (Qeq_bool r 0); [reflexivity|].
  now rewrite (augmentSeverity_newest_first now first rest _ Hnewest).
Qed.

Lemma first_of_newest_first_decides_witness :
  newestFirst NOW (screeningAgedDays 3 "mild")
    [screeningAgedDays 20 "severe"; screeningAgedDays 45 "moderate"] /\
  classify asciiToLowerCase NOW "I feel anxious" []
    [screeningAgedDays 3 "mild"; screeningAgedDays 20 "severe";
     screeningAgedDays 45 "moderate"] =
  classify asciiToLowerCase NOW "I feel anxious" [] [screeningAgedDays 3 "mild"].
Proof.
  assert (H : newestFirst NOW (screeningAgedDays 3 "mild")
                [screeningAgedDays 20 "severe"; screeningAgedDays 45 "moderate"]).
  { eexists. split; [reflexivity|]. split; [vm_compute; reflexivity|].
    intros s t' [<-|[<-|[]]] [= <-]; vm_compute; discriminate. }
  split; [exact H|].
  exact (first_of_newest_first_decides asciiToLowerCase NOW "I feel anxious" []
           _ _ H).
Defined.

(** X13.  The recency test of [classify] and the [createdAt] clause of the
    query for recent screenings select the same records at the same
    instant: a record passes the filter exactly when its date is valid and
    not before the instant sixty days back, which also holds of a date
    after the current time. *)
Theorem recency_tests_agree (now : Z) (s : Screening) :
  isRecent now s =
  match createdAt s with
  | Some t => createdAtClause now t
  | None => false
  end.
Proof.
  rewrite isRecent_withinLast60Days.
  unfold withinLast60Days, createdAtClause, sixtyDaysAgo, SIXTY_DAYS_MS.
  destruct (createdAt s) as [t|]; [|reflexivity].
  destruct (Z.leb_spec (now - t) (60 * 24 * 60 * 60 * 1000)),
           (Z.leb_spec (now - 60 * 24 * 60 * 60 * 1000) t);
    solve [reflexivity | lia].
Qed.

(** ** buildResponse *)

Lemma no_crisis_template_iff (language : string) :
  templatesFor language CRISIS = None <->
  language = "hi" \/ isInheritedKey language = true.
Proof.
  unfold templatesFor, isInheritedKey.
  destruct (String.eqb language "en") eqn:Hen.
  - apply String.eqb_eq in Hen. subst language. simpl.
    split; [discriminate | intros [H|H]; discriminate H].
  - destruct (String.eqb language "hi") eqn:Hhi.
    + apply String.eqb_eq in Hhi. split; [now left | reflexivity].
    + apply String.eqb_neq in Hhi.
      destruct (existsb (String.eqb language) OBJECT_PROTOTYPE_KEYS).
      * split; [now right | reflexivity].
      * simpl. split; [discriminate | intros [H|H]; [contradiction | discriminate H]].
Qed.

(** X14.  [buildResponse] throws in exactly two situations: the crisis
    flag is set and the language is "hi" or an inherited member name,
    whose tables have no CRISIS entry; or the crisis flag is not set, the
    category is CRISIS and the language table has a CRISIS entry, which
    lacks the strategies of the other templates. *)
Theorem buildResponse_failure_cases (classification : Classification)
    (language : string) :
  (exists message, buildResponse classification language = Throw message) <->
  (crisis classification = true /\
   (language = "hi" \/ isInheritedKey language = true)) \/
  (crisis classification = false /\
   category classification = CRISIS /\
   ~ (language = "hi" \/ isInheritedKey language = true)).
Proof.
  rewrite buildResponse_throws_iff, <- no_crisis_template_iff. reflexivity.
Qed.

(** X15.  Every bundle [buildResponse] returns can be shown: its message
    is not empty, it offers at least three quick replies, its crisis
    banner is shown exactly when the classification is a crisis, and the
    category it echoes, if any, is that of the classification. *)
Theorem returned_bundle_is_well_formed (classification : Classification)
    (language : string) (bundle : ResponseBundle) :
  buildResponse classification language = Ok bundle ->
  message bundle <> "" /\
  (3 <= List.length (quickReplies bundle))%nat /\
  showCrisisBanner bundle = crisis classification /\
  (echoedCategory bundle = None \/
   echoedCategory bundle = Some (category classification)).
Proof.
  intros H. pose proof (buildResponse_usable _ _ _ H) as [Hmsg _].
  split; [exact Hmsg|]. revert H. unfold buildResponse.
  destruct (crisis classification).
  - destruct (templatesFor language CRISIS); [|discriminate].
    intros [= <-]. simpl. repeat split; auto.
  - destruct (templatesFor language (category classification)) as [template|].
    + destruct (get_strategies template); [|discriminate].
      intros [= <-]. simpl. repeat split; auto.
    + intros [= <-]. simpl. repeat split; auto.
Qed.

Lemma returned_bundle_is_well_formed_witness :
  exists bundle,
    buildResponse
      {| category := SLEEP; severity := SEVERITY_LEVELS.MODERATE;
         crisis := false; confidence := 2 # 11 |} "en" = Ok bundle /\
    message bundle <> "" /\
    (3 <= List.length (quickReplies bundle))%nat /\
    showCrisisBanner bundle = false /\
    (echoedCategory bundle = None \/ echoedCategory bundle = Some SLEEP).
Proof.
  eexists. split; [vm_compute; reflexivity|].
  exact (returned_bundle_is_well_formed
           {| category := SLEEP; severity := SEVERITY_LEVELS.MODERATE;
              crisis := false; confidence := 2 # 11 |} "en" _ eq_refl).
Defined.

(** ** From the message to the reply *)

Lemma classify_crisis_iff (toLowerCase : string -> string) (now : Z)
    (text : string) (history : list ChatMessage) (screenings : list Screening) :
  crisis (classify toLowerCase now text history screenings) = true <->
  mentionsCrisis toLowerCase text.
Proof.
  rewrite <- hasCrisisKeywords_iff. unfold classify.
  destruct (hasCrisisKeywords toLowerCase (toLowerCase text));
    [split; reflexivity|].
  destruct (bestCategory toLowerCase (toLowerCase text)) as [[c r]|];
    [destruct (Qeq_bool r 0)|]; simpl; split; discriminate.
Qed.

Lemma classify_category_crisis (toLowerCase : string -> string) (now : Z)
    (text : string) (history : list ChatMessage) (screenings : list Screening) :
  category (classify toLowerCase now text history screenings) = CRISIS ->
  crisis (classify toLowerCase now text history screenings) = true.
Proof.
  destruct (classify_cases toLowerCase now text history screenings)
    as [-> | [-> | (c & r & Hc & ->)]]; simpl.
  - reflexivity.
  - discriminate.
  - intros ->. simpl in Hc. intuition discriminate.
Qed.

(** X16.  The reply to a chat message.  [buildResponse] applied to the
    classification of a text throws exactly when the text holds a crisis
    keyword and the language is "hi" or an inherited member name; whenever
    it returns a bundle, the crisis banner is shown exactly when the text
    holds a crisis keyword. *)
Theorem chat_reply (toLowerCase : string -> string) (now : Z) (text : string)
    (history : list ChatMessage) (screenings : list Screening)
    (language : string) :
  ((exists message,
       buildResponse (classify toLowerCase now text history screenings) language
       = Throw message) <->
   mentionsCrisis toLowerCase text /\
   (language = "hi" \/ isInheritedKey language = true)) /\
  (forall bundle,
      buildResponse (classify toLowerCase now text history screenings) language
      = Ok bundle ->
      (showCrisisBanner bundle = true <-> mentionsCrisis toLowerCase text)).
Proof.
  split.
  - rewrite buildResponse_throws_iff, no_crisis_template_iff,
      <- (classify_crisis_iff toLowerCase now text history screenings).
    split.
    + intros [H | (Hflag & Hcat & _)]; [exact H|].
      apply classify_category_crisis in Hcat. rewrite Hcat in Hflag.
      discriminate Hflag.
    + intros H. now left.
  - intros bundle H.
    rewrite <- (classify_crisis_iff toLowerCase now text history screenings).
    revert H. unfold buildResponse.
    destruct (crisis (classify toLowerCase now text history screenings)).
    + destruct (templatesFor language CRISIS); [|discriminate].
      intros [= <-]. simpl. reflexivity.
    + destruct (templatesFor language
                  (category (classify toLowerCase now text history screenings)))
        as [template|].
      * destruct (get_strategies template); [|discriminate].
        intros [= <-]. simpl. reflexivity.
      * intros [= <-]. simpl. reflexivity.
Qed.

(** X17.  The fallback between languages is by language, not by category.
    A language code that is neither "en" nor "hi" nor an inherited member
    name gets the English reply.  In "hi", every classification without
    the crisis flag whose category is not ANXIETY gets the generic message,
    not the English template of its category. *)
Theorem language_fallback (classification : Classification) :
  (forall language,
      unsupportedLanguage language ->
      buildResponse classification language =
      buildResponse classification "en") /\
  (crisis classification = false ->
   category classification <> ANXIETY ->
   buildResponse classification "hi" = Ok GENERIC_BUNDLE).
Proof.
  split.
  - intros language (Hen & Hhi & Hkey). unfold buildResponse, templatesFor.
    apply String.eqb_neq in Hen. apply String.eqb_neq in Hhi.
    unfold isInheritedKey in Hkey. now rewrite Hen, Hhi, Hkey.
  - intros Hflag Hcat. unfold buildResponse. rewrite Hflag.
    destruct (category classification); try reflexivity. now destruct Hcat.
Qed.

Lemma language_fallback_witness :
  unsupportedLanguage "fr" /\
  buildResponse
    {| category := DEPRESSION; severity := SEVERITY_LEVELS.HIGH;
       crisis := false; confidence := 13 # 18 |} "fr" =
  buildResponse
    {| category := DEPRESSION; severity := SEVERITY_LEVELS.HIGH;
       crisis := false; confidence := 13 # 18 |} "en" /\
  buildResponse
    {| category := DEPRESSION; severity := SEVERITY_LEVELS.HIGH;
       crisis := false; confidence := 13 # 18 |} "hi" = Ok GENERIC_BUNDLE.
Proof.
  assert (H : unsupportedLanguage "fr").
  { repeat split; try discriminate. }
  split; [exact H|].
  pose proof (language_fallback
                {| category := DEPRESSION; severity := SEVERITY_LEVELS.HIGH;
                   crisis := false; confidence := 13 # 18 |}) as [H1 H2].
  split; [exact (H1 "fr" H) | apply H2; [reflexivity | discriminate]].
Defined.

(** ** From a screening score to the severity of a chat message *)

Lemma scored_band (arg : ScreeningScorer.JsArg)
    (r : ScreeningScorer.ScreeningResult) :
  ScreeningScorer.scorePHQ9 arg = Ok r \/ ScreeningScorer.scoreGAD7 arg = Ok r ->
  ScreeningScorer.severityBand r =
    ScreeningScorer.phq9Band (ScreeningScorer.score r) \/
  ScreeningScorer.severityBand r =
    ScreeningScorer.gad7Band (ScreeningScorer.score r).
Proof.
  unfold ScreeningScorer.scorePHQ9, ScreeningScorer.scoreGAD7.
  destruct arg as [|l]; [intros [H|H]; discriminate H|].
  intros [H|H]; [left | right]; revert H;
    match goal with
    | |- context [negb (Nat.eqb ?a ?b)] => destruct (negb (Nat.eqb a b))
    end; try discriminate;
    destruct (negb (forallb ScreeningScorer.validAnswer l)); try discriminate;
    intros [= <-]; reflexivity.
Qed.

Lemma augmentSeverity_single (now : Z) (s : Screening) (severity : Severity) :
  isRecent now s = true ->
  augmentSeverity now [s] severity =
    if bandIs s "severe" || bandIs s "moderate-severe"
    then SEVERITY_LEVELS.HIGH
    else if bandIs s "moderate"
            && SEVERITY_LEVELS.eqb severity SEVERITY_LEVELS.LOW
    then SEVERITY_LEVELS.MODERATE
    else severity.
Proof.
  intros Hrecent. unfold augmentSeverity. cbn [filter]. now rewrite Hrecent.
Qed.

(** X18.  From a screening to the chat.  Let a screening be scored by
    [scorePHQ9] or [scoreGAD7], stored with the band of the result, and be
    the only screening of the last 60 days.  For a message without crisis
    keyword in which a category keyword occurs, a total of 15 or more
    makes the severity high, a total from 10 to 14 raises a low severity
    to moderate and leaves any other, a total of 9 or less changes
    nothing. *)
Theorem severity_from_screening_score (toLowerCase : string -> string)
    (now : Z) (text : string) (history : list ChatMessage)
    (arg : ScreeningScorer.JsArg) (r : ScreeningScorer.ScreeningResult)
    (t : Z) :
  ~ mentionsCrisis toLowerCase text ->
  mentionsCategory toLowerCase text ->
  ScreeningScorer.scorePHQ9 arg = Ok r \/ ScreeningScorer.scoreGAD7 arg = Ok r ->
  (now - t <= SIXTY_DAYS_MS)%Z ->
  let screening :=
    {| createdAt := Some t;
       severityBand :=
         Some (ScreeningScorer.bandName (ScreeningScorer.severityBand r)) |} in
  let result := classify toLowerCase now text history [screening] in
  let derived := densitySeverity (confidence result) in
  ((15 <= ScreeningScorer.score r)%Z ->
   severity result = SEVERITY_LEVELS.HIGH) /\
  ((10 <= ScreeningScorer.score r <= 14)%Z ->
   severity result =
     if SEVERITY_LEVELS.eqb derived SEVERITY_LEVELS.LOW
     then SEVERITY_LEVELS.MODERATE else derived) /\
  ((ScreeningScorer.score r <= 9)%Z -> severity result = derived).
Proof.
  intros Hcrisis Hcat Hscored Hage screening result derived.
  subst derived result.
  destruct (classify_matched toLowerCase now text history [screening]
              Hcrisis Hcat) as (c & r0 & _ & _ & -> & _).
  cbn [severity confidence].
  assert (Hrecent : isRecent now screening = true).
  { rewrite isRecent_withinLast60Days. unfold withinLast60Days, screening.
    cbn [createdAt]. now apply Z.leb_le. }
  rewrite (augmentSeverity_single now screening _ Hrecent).
  unfold bandIs, screening. cbn [severityBand].
  destruct (scored_band arg r Hscored) as [-> | ->];
    [unfold ScreeningScorer.phq9Band | unfold ScreeningScorer.gad7Band];
    repeat match goal with
           | |- context [(?a <=? ?b)%Z] => destruct (Z.leb_spec a b)
           end;
    cbn; repeat split; intros; solve [reflexivity | lia].
Qed.

Lemma severity_from_screening_score_witness :
  ~ mentionsCrisis asciiToLowerCase "I feel anxious" /\
  mentionsCategory asciiToLowerCase "I feel anxious" /\
  (exists r,
      ScreeningScorer.scorePHQ9
        (ScreeningScorer.JsArray
           (map ScreeningScorer.JsInt [2; 2; 2; 2; 2; 2; 2; 1; 1]%Z)) = Ok r /\
      ScreeningScorer.score r = 16%Z /\
      severity
        (classify asciiToLowerCase NOW "I feel anxious" []
           [ {| createdAt := Some (NOW - 7 * DAY)%Z;
                severityBand :=
                  Some (ScreeningScorer.bandName
                          (ScreeningScorer.severityBand r)) |} ]) =
      SEVERITY_LEVELS.HIGH).
Proof.
  assert (H1 : ~ mentionsCrisis asciiToLowerCase "I feel anxious")
    by no_crisis_keyword.
  assert (H2 : mentionsCategory asciiToLowerCase "I feel anxious")
    by some_category_keyword ANXIETY.
  split; [exact H1|]. split; [exact H2|].
  eexists. split; [reflexivity|]. split; [reflexivity|].
  refine (proj1 (severity_from_screening_score asciiToLowerCase NOW
                   "I feel anxious" []
                   (ScreeningScorer.JsArray
                      (map ScreeningScorer.JsInt [2; 2; 2; 2; 2; 2; 2; 1; 1]%Z))
                   _ (NOW - 7 * DAY)%Z H1 H2 (or_introl eq_refl) _) _).
  - vm_compute. discriminate.
  - vm_compute. discriminate.
Defined.

End ClassifierFacts.
